(** * Financial data discovery samples: the two Lambda handlers

    A shallow embedding of

    - [src/eventbridge-macie/lambda_handler.py], the classification tagger
      (module [Tagger] below), and
    - [src/s3-events/lambda_handler.py], the custom resource that installs
      bucket notifications (module [Configurator] below),

    over a small model of the Python values the handlers receive (module
    [Py]), of [urllib.parse.unquote_plus] (module [Urllib]) and of the S3
    client, whose answers are given by an arbitrary service that sees the
    calls made so far.

    Logger calls are left out of the model: they have no influence on
    control flow, on the S3 calls or on the metrics, except through what the
    evaluation of their arguments raises (the [len(records)] of [handler],
    which is kept). The decorators of the handlers, which belong to the
    Powertools and crhelper libraries, are not modelled either. *)

From Stdlib Require Import ZArith NArith List String Ascii Lia Bool.
From Stdlib Require Import SpecFloat DecimalString.
From stdpp Require Import base option list gmap.

#[local] Set Warnings "-register-all".
#[local] Open Scope Z_scope.

(** ** Python values *)

(** A Python [str] is a sequence of Unicode code points. *)
Definition pystr := list N.

(** [U "abc"] is the Python literal ["abc"] (ASCII text). *)
Definition U (s : string) : pystr := map N_of_ascii (list_ascii_of_string s).

(** What [json.loads] returns, which is also the shape of a Lambda event.
    [None] is [JNull]; a [dict] has [str] keys. *)
Inductive json :=
| JNull
| JBool (b : bool)
| JInt (z : Z)
| JFloat (f : spec_float)
| JStr (s : pystr)
| JList (l : list json)
| JDict (d : gmap (list N) json).

(** The exception classes that occur; messages are not kept. [ClientError]
    is [botocore.exceptions.ClientError] (an error response of the service);
    [BotoCoreError] stands for the other exceptions a botocore client raises
    (parameter validation, connection and timeout errors), which are not
    subclasses of [ClientError]. All of them derive from [Exception]. *)
Inductive exn :=
| AttributeError
| KeyError
| TypeError
| ValueError
| OverflowError
| UnicodeDecodeError
| JSONDecodeError
| ClientError
| BotoCoreError
| Exception.

Inductive outcome (A : Type) :=
| Ok (a : A)
| Raise (e : exn).
Arguments Ok {A} a.
Arguments Raise {A} e.

(** [except botocore.exceptions.ClientError] *)
Definition is_ClientError (e : exn) : bool :=
  match e with ClientError => true | _ => false end.

(** The parts of the Python runtime that are used but not modelled down to
    the character: [int()] of a [str] ([None] when it raises [ValueError])
    and [str()] of a value that is not already a [str]. *)
Record python := {
  int_of_str : pystr -> option Z;
  str_of_value : json -> pystr;
}.

Module Py.

(** Truth value testing: [if x], [not x]. *)
Definition truthy (v : json) : bool :=
  match v with
  | JNull => false
  | JBool b => b
  | JInt z => negb (z =? 0)
  | JFloat f => match f with S754_zero _ => false | _ => true end
  | JStr s => match s with [] => false | _ => true end
  | JList l => match l with [] => false | _ => true end
  | JDict d => negb (Nat.eqb (size d) 0)
  end.

(** [v.get(k, dflt)]: only a [dict] has the method. *)
Definition get (v : json) (k : pystr) (dflt : json) : outcome json :=
  match v with
  | JDict d => Ok (default dflt (d !! k))
  | _ => Raise AttributeError
  end.

(** [v[k]] for a [str] key [k]. *)
Definition getitem (v : json) (k : pystr) : outcome json :=
  match v with
  | JDict d => match d !! k with Some x => Ok x | None => Raise KeyError end
  | _ => Raise TypeError
  end.

(** [int(f)] for a float: truncation towards zero. *)
Definition int_of_float (f : spec_float) : outcome Z :=
  match f with
  | S754_zero _ => Ok 0
  | S754_infinity _ => Raise OverflowError
  | S754_nan => Raise ValueError
  | S754_finite s m e =>
      let a := if 0 <=? e then Z.pos m * 2 ^ e else Z.pos m / 2 ^ (- e) in
      Ok (if s then - a else a)
  end.

(** [int(v)] *)
Definition int (py : python) (v : json) : outcome Z :=
  match v with
  | JInt z => Ok z
  | JBool b => Ok (if b then 1 else 0)
  | JFloat f => int_of_float f
  | JStr s => match int_of_str py s with Some z => Ok z | None => Raise ValueError end
  | JNull | JList _ | JDict _ => Raise TypeError
  end.

(** [str(v)] *)
Definition str (py : python) (v : json) : pystr :=
  match v with
  | JStr s => s
  | _ => str_of_value py v
  end.

(** [len(v)] *)
Definition len (v : json) : outcome nat :=
  match v with
  | JStr s => Ok (length s)
  | JList l => Ok (length l)
  | JDict d => Ok (size d)
  | _ => Raise TypeError
  end.

(** The items [for x in v] goes through. A [dict] yields its keys; the
    model yields them in the order of [map_to_list], not in insertion
    order. *)
Definition iter (v : json) : outcome (list json) :=
  match v with
  | JStr s => Ok (map (fun c => JStr [c]) s)
  | JList l => Ok l
  | JDict d => Ok (map (fun kv => JStr (fst kv)) (map_to_list d))
  | _ => Raise TypeError
  end.

End Py.

(** ** [urllib.parse.unquote_plus]

    The key of an S3 event record is passed through
    [urllib.parse.unquote_plus] (CPython's [Lib/urllib/parse.py]), with its
    defaults [encoding='utf-8'] and [errors='replace']. *)
Module Urllib.
#[local] Open Scope N_scope.

(** [string.replace('+', ' ')] *)
Definition replace_plus (s : pystr) : pystr :=
  map (fun c => if c =? 43 then 32 else c) s.

(** [bytes.split(b'%')] and the like: the pieces between separators. *)
Fixpoint split_on (sep : N) (l : list N) : list (list N) :=
  match l with
  | [] => [[]]
  | c :: l' =>
      if c =? sep then [] :: split_on sep l'
      else match split_on sep l' with
           | h :: t => (c :: h) :: t
           | [] => [[c]]
           end
  end.

(** The value of a character of ['0123456789ABCDEFabcdef']. *)
Definition hex_value (c : N) : option N :=
  if (48 <=? c) && (c <=? 57) then Some (c - 48)
  else if (65 <=? c) && (c <=? 70) then Some (c - 55)
  else if (97 <=? c) && (c <=? 102) then Some (c - 87)
  else None.

(** [_hextobyte[item[:2]]], together with [item[2:]]; [None] is the
    [KeyError] of the table. *)
Definition hextobyte (item : list N) : option (N * list N) :=
  match item with
  | a :: b :: rest =>
      match hex_value a, hex_value b with
      | Some x, Some y => Some (16 * x + y, rest)
      | _, _ => None
      end
  | _ => None
  end.

(** One piece after a ['%']: the byte it encodes and the rest of the
    piece, or the ['%'] put back. *)
Definition unquote_item (item : list N) : list N :=
  match hextobyte item with
  | Some (b, rest) => b :: rest
  | None => 37 :: item
  end.

(** [unquote_to_bytes], on a chunk of ASCII characters (whose UTF-8
    encoding is the chunk itself). *)
Definition unquote_to_bytes (chunk : list N) : list N :=
  match chunk with
  | [] => []
  | _ =>
      match split_on 37 chunk with
      | [] => chunk
      | [_] => chunk
      | first :: items => first ++ concat (map unquote_item items)
      end
  end.

Definition in_range (lo hi b : N) : bool := (lo <=? b) && (b <=? hi).
Definition is_continuation (b : N) : bool := in_range 128 191 b.

(** The second byte allowed after the lead byte of a three-byte or
    four-byte sequence (no overlong forms, no surrogates, nothing above
    U+10FFFF). *)
Definition second_ok (b0 b1 : N) : bool :=
  if b0 =? 224 then in_range 160 191 b1
  else if b0 =? 237 then in_range 128 159 b1
  else if b0 =? 240 then in_range 144 191 b1
  else if b0 =? 244 then in_range 128 143 b1
  else is_continuation b1.

Definition REPLACEMENT : N := 65533.

(** [bytes.decode('utf-8', 'replace')]: every ill-formed sequence (its
    longest well-formed beginning, or one byte) becomes U+FFFD. *)
Fixpoint utf8_decode_replace (bs : list N) : pystr :=
  match bs with
  | [] => []
  | b0 :: t =>
      if b0 <? 128 then b0 :: utf8_decode_replace t
      else if in_range 194 223 b0 then
        match t with
        | b1 :: t1 =>
            if is_continuation b1
            then ((b0 - 192) * 64 + (b1 - 128)) :: utf8_decode_replace t1
            else REPLACEMENT :: utf8_decode_replace t
        | [] => [REPLACEMENT]
        end
      else if in_range 224 239 b0 then
        match t with
        | b1 :: t1 =>
            if second_ok b0 b1 then
              match t1 with
              | b2 :: t2 =>
                  if is_continuation b2
                  then ((b0 - 224) * 4096 + (b1 - 128) * 64 + (b2 - 128))
                         :: utf8_decode_replace t2
                  else REPLACEMENT :: utf8_decode_replace t1
              | [] => [REPLACEMENT]
              end
            else REPLACEMENT :: utf8_decode_replace t
        | [] => [REPLACEMENT]
        end
      else if in_range 240 244 b0 then
        match t with
        | b1 :: t1 =>
            if second_ok b0 b1 then
              match t1 with
              | b2 :: t2 =>
                  if is_continuation b2 then
                    match t2 with
                    | b3 :: t3 =>
                        if is_continuation b3
                        then ((b0 - 240) * 262144 + (b1 - 128) * 4096
                              + (b2 - 128) * 64 + (b3 - 128))
                               :: utf8_decode_replace t3
                        else REPLACEMENT :: utf8_decode_replace t2
                    | [] => [REPLACEMENT]
                    end
                  else REPLACEMENT :: utf8_decode_replace t1
              | [] => [REPLACEMENT]
              end
            else REPLACEMENT :: utf8_decode_replace t
        | [] => [REPLACEMENT]
        end
      else REPLACEMENT :: utf8_decode_replace t
  end.

(** [unquote_to_bytes(chunk).decode(encoding, errors)] *)
Definition decode_chunk (chunk : list N) : pystr :=
  utf8_decode_replace (unquote_to_bytes chunk).

(** The loop of [unquote] over the pieces of [_asciire.split(string)]:
    every maximal run of ASCII characters is unquoted and decoded, the
    characters between the runs are kept. [run] is the ASCII run read so
    far. *)
Fixpoint unquote_parts (run : list N) (s : pystr) : pystr :=
  match s with
  | [] => decode_chunk run
  | c :: s' =>
      if c <? 128 then unquote_parts (run ++ [c]) s'
      else decode_chunk run ++ c :: unquote_parts [] s'
  end.

Definition unquote (s : pystr) : pystr :=
  if existsb (N.eqb 37) s then unquote_parts [] s else s.

Definition unquote_plus (s : pystr) : pystr :=
  unquote (replace_plus s).

End Urllib.

(** ** The S3 client and the handlers' effects *)

(** A rule of a lifecycle configuration, as [lifecycle_config] builds it:
    the [Filter] carries a [Prefix], each transition its [NoncurrentDays]
    and [StorageClass], the expiration its [NoncurrentDays]. *)
Record lifecycle_rule := {
  Filter_Prefix : json;
  Status : string;
  NoncurrentVersionTransitions : list (Z * string);
  NoncurrentVersionExpiration : Z;
}.

(** The calls the handlers make on the boto3 S3 client, with their keyword
    arguments. [VersionId] is [None] when the argument is not passed. *)
Inductive s3_call :=
| get_object (Bucket Key : json) (VersionId : option json)
| put_object_tagging (Bucket Key : json) (TagSet : list (pystr * pystr))
    (VersionId : option json)
| put_bucket_lifecycle_configuration (Bucket : json)
    (Rules : list lifecycle_rule)
| put_bucket_notification_configuration (Bucket : json)
    (NotificationConfiguration : json).

(** The body of an S3 object, taken as what
    [json.loads(body.read().decode("utf-8"))] makes of it: the parsed value,
    or the exception of the decoding or of the parsing. *)
Definition body := outcome json.

(** The client and the service behind it: the answer to a call, given the
    calls made before it. The answer is an exception or, for [get_object],
    the body of the object (the content of the answer to the other calls is
    not used). *)
Definition s3_client := list s3_call -> s3_call -> outcome body.

(** What a handler leaves behind: the calls made on the client, oldest
    first, and the metrics added ([MetricUnit.Count] throughout). *)
Record state := {
  calls : list s3_call;
  metrics : list (string * Z);
}.

Definition M (A : Type) : Type := state -> outcome A * state.

Definition ret {A} (a : A) : M A := fun st => (Ok a, st).
Definition raise {A} (e : exn) : M A := fun st => (Raise e, st).
Definition bind {A B} (m : M A) (k : A -> M B) : M B :=
  fun st =>
    match m st with
    | (Ok a, st') => k a st'
    | (Raise e, st') => (Raise e, st')
    end.
Definition lift {A} (r : outcome A) : M A := fun st => (r, st).

Notation "x <- m ;; k" := (bind m (fun x => k))
  (at level 100, m at next level, right associativity).
Notation "m ;;; k" := (bind m (fun _ => k))
  (at level 100, right associativity).

(** [try: body / except <classes>: handler / else: orelse] *)
Definition try_except_else {A B} (body : M A) (classes : exn -> bool)
    (handler : M B) (orelse : A -> M B) : M B :=
  fun st =>
    match body st with
    | (Ok a, st') => orelse a st'
    | (Raise e, st') => if classes e then handler st' else (Raise e, st')
    end.

Definition s3_request (s3 : s3_client) (c : s3_call) : M body :=
  fun st => (s3 (calls st) c,
             {| calls := calls st ++ [c]; metrics := metrics st |}).

(** [metrics.add_metric(name=..., unit=MetricUnit.Count, value=...)] *)
Definition add_metric (name : string) (value : Z) : M unit :=
  fun st => (Ok tt,
             {| calls := calls st; metrics := metrics st ++ [(name, value)] |}).

(** [for x in items: body(x)] *)
Fixpoint for_each (body : json -> M unit) (items : list json) : M unit :=
  match items with
  | [] => ret tt
  | x :: rest => body x ;;; for_each body rest
  end.

(** [params["VersionId"] = version_id], under [if version_id:] *)
Definition version_param (version_id : json) : option json :=
  if Py.truthy version_id then Some version_id else None.

(** ** [src/eventbridge-macie/lambda_handler.py] *)
Module Tagger.

(** The module's globals, read from the environment when it is loaded. *)
Record config := {
  TAG_KEY_NAME : pystr;
  SCORE_THRESHOLD : Z;
  GLACIER_TRANSITION_DAYS : Z;
  EXPIRE_OBJECTS_DAYS : Z;
}.

(** [int(os.getenv(name, dflt))], a [ValueError] turned into
    [Exception]. *)
Definition getenv_int (py : python) (getenv : string -> option pystr)
    (name : string) (dflt : Z) : outcome Z :=
  match getenv name with
  | None => Ok dflt
  | Some s =>
      match int_of_str py s with
      | Some z => Ok z
      | None => Raise Exception
      end
  end.

(** The top-level statements of the module. *)
Definition load_config (py : python) (getenv : string -> option pystr)
    : outcome config :=
  let tag := default (U "Severity") (getenv "TAG_KEY_NAME"%string) in
  if negb (Py.truthy (JStr tag)) then Raise Exception
  else
    match getenv_int py getenv "SCORE_THRESHOLD" 3 with
    | Raise e => Raise e
    | Ok threshold =>
        match getenv_int py getenv "GLACIER_TRANSITION_DAYS" 365 with
        | Raise e => Raise e
        | Ok glacier =>
            match getenv_int py getenv "EXPIRE_OBJECTS_DAYS" 1825 with
            | Raise e => Raise e
            | Ok expire =>
                Ok {| TAG_KEY_NAME := tag;
                      SCORE_THRESHOLD := threshold;
                      GLACIER_TRANSITION_DAYS := glacier;
                      EXPIRE_OBJECTS_DAYS := expire |}
            end
        end
    end.

(** [urllib.parse.unquote_plus(key)]: anything but a [str] has no
    [replace] method. *)
Definition unquote_plus (key : json) : outcome json :=
  match key with
  | JStr s => Ok (JStr (Urllib.unquote_plus s))
  | _ => Raise AttributeError
  end.

Section Handler.
Context (py : python) (s3 : s3_client) (cfg : config).

Definition get_json_object (bucket key version_id : json) : M json :=
  try_except_else
    (response <-
       s3_request s3 (get_object bucket key (version_param version_id)) ;;
     lift response)
    (fun _ => true)
    (ret JNull)
    ret.

Definition tag_object (value bucket key version_id : json) : M unit :=
  let tagset := [(TAG_KEY_NAME cfg, Py.str py value)] in
  try_except_else
    (s3_request s3
       (put_object_tagging bucket key tagset (version_param version_id)))
    is_ClientError
    (add_metric "TaggingFailed" 1)
    (fun _ => add_metric "TaggingSuccess" 1).

Definition lifecycle_rules (key : json) : list lifecycle_rule :=
  [ {| Filter_Prefix := key;
       Status := "Enabled";
       NoncurrentVersionTransitions :=
         [(GLACIER_TRANSITION_DAYS cfg, "GLACIER"%string)];
       NoncurrentVersionExpiration := EXPIRE_OBJECTS_DAYS cfg |} ].

Definition lifecycle_config (bucket key : json) : M unit :=
  try_except_else
    (s3_request s3
       (put_bucket_lifecycle_configuration bucket (lifecycle_rules key)))
    is_ClientError
    (ret tt)
    (fun _ => ret tt).

Definition process_record (record : json) : M unit :=
  s3_ <- lift (Py.get record (U "s3") (JDict ∅)) ;;
  bucket_ <- lift (Py.get s3_ (U "bucket") (JDict ∅)) ;;
  bucket <- lift (Py.get bucket_ (U "name") JNull) ;;
  object_ <- lift (Py.get s3_ (U "object") (JDict ∅)) ;;
  key <- lift (Py.get object_ (U "key") JNull) ;;
  key <- (if Py.truthy key then lift (unquote_plus key) else ret key) ;;
  version_id <- lift (Py.get object_ (U "versionId") JNull) ;;
  data <- get_json_object bucket key version_id ;;
  if negb (Py.truthy data) then add_metric "EmptyObject" 1
  else
    detail <- lift (Py.get data (U "detail") (JDict ∅)) ;;
    severity <- lift (Py.getitem detail (U "severity")) ;;
    score <- lift (Py.getitem severity (U "score")) ;;
    severity_score <- lift (Py.int py score) ;;
    severity_desc <- lift (Py.getitem severity (U "description")) ;;
    resourcesAffected <-
      lift (Py.get detail (U "resourcesAffected") (JDict ∅)) ;;
    if negb (Py.truthy resourcesAffected)
    then add_metric "MissingResources" 1
    else
      s3Bucket <- lift (Py.getitem resourcesAffected (U "s3Bucket")) ;;
      affected_bucket <- lift (Py.getitem s3Bucket (U "name")) ;;
      s3Object <- lift (Py.getitem resourcesAffected (U "s3Object")) ;;
      affected_key <- lift (Py.getitem s3Object (U "key")) ;;
      affected_version <- lift (Py.get s3Object (U "versionId") JNull) ;;
      if severity_score <? SCORE_THRESHOLD cfg
      then add_metric "TaggingSkipped" 1
      else
        tag_object severity_desc affected_bucket affected_key
          affected_version ;;;
        lifecycle_config affected_bucket affected_key.

Definition handler (event : json) : M unit :=
  records <- lift (Py.get event (U "Records") (JList [])) ;;
  _ <- lift (Py.len records) ;;
  items <- lift (Py.iter records) ;;
  for_each process_record items.

End Handler.
End Tagger.

(** ** [src/s3-events/lambda_handler.py] *)
Module Configurator.

(** The verbs of a custom resource request. *)
Inductive request_type := Create | Update | Delete.

Section Handler.
Context (s3 : s3_client).

(** A [ClientError] is logged and raised again; any other exception was
    never caught. *)
Definition put_bucket_notification (bucket config : json) : M unit :=
  try_except_else
    (s3_request s3 (put_bucket_notification_configuration bucket config))
    is_ClientError
    (raise ClientError)
    (fun _ => ret tt).

Definition create (event : json) : M json :=
  props <- lift (Py.get event (U "ResourceProperties") (JDict ∅)) ;;
  bucket_name <- lift (Py.get props (U "BucketName") JNull) ;;
  if negb (Py.truthy bucket_name) then raise ValueError
  else
    config <- lift (Py.get props (U "NotificationConfiguration") (JDict ∅)) ;;
    if negb (Py.truthy config) then raise ValueError
    else
      put_bucket_notification bucket_name config ;;;
      ret (JStr (U "ResultsNotifications")).

Definition delete (event : json) : M json :=
  props <- lift (Py.get event (U "ResourceProperties") (JDict ∅)) ;;
  bucket_name <- lift (Py.get props (U "BucketName") JNull) ;;
  if negb (Py.truthy bucket_name) then raise ValueError
  else
    put_bucket_notification bucket_name (JDict ∅) ;;;
    ret JNull.

(** [@helper.create] and [@helper.update] register [create],
    [@helper.delete] registers [delete]. *)
Definition registered (verb : request_type) : json -> M json :=
  match verb with
  | Create | Update => create
  | Delete => delete
  end.

End Handler.
End Configurator.

(** ** The vocabulary of the specification *)

(** [record["s3"][group][name]] the way [process_record] reads it, with
    [.get] and a default at every level. *)
Definition record_field (record : json) (group name : pystr) : outcome json :=
  match Py.get record (U "s3") (JDict ∅) with
  | Raise e => Raise e
  | Ok s3_ =>
      match Py.get s3_ group (JDict ∅) with
      | Raise e => Raise e
      | Ok g => Py.get g name JNull
      end
  end.

(** Where the report of a record is fetched from: bucket, decoded key and
    version identifier. *)
Definition report_location (record : json) : outcome (json * json * json) :=
  match record_field record (U "bucket") (U "name") with
  | Raise e => Raise e
  | Ok bucket =>
      match record_field record (U "object") (U "key") with
      | Raise e => Raise e
      | Ok key =>
          match (if Py.truthy key then Tagger.unquote_plus key else Ok key) with
          | Raise e => Raise e
          | Ok key' =>
              match record_field record (U "object") (U "versionId") with
              | Raise e => Raise e
              | Ok version_id => Ok (bucket, key', version_id)
              end
          end
      end
  end.

(** The call that fetches the report. *)
Definition fetch_call (loc : json * json * json) : s3_call :=
  let '(bucket, key, version_id) := loc in
  get_object bucket key (version_param version_id).

(** The fetch fails: the client raises, or the body is not JSON text. *)
Definition fetch_fails (s3 : s3_client) (history : list s3_call)
    (loc : json * json * json) : bool :=
  match s3 history (fetch_call loc) with
  | Raise _ => true
  | Ok (Raise _) => true
  | Ok (Ok _) => false
  end.

(** The report a record yields: the parsed body, [None] when the fetch
    fails. *)
Definition fetched (s3 : s3_client) (history : list s3_call)
    (loc : json * json * json) : json :=
  match s3 history (fetch_call loc) with
  | Ok (Ok v) => v
  | _ => JNull
  end.

(** The [detail] object of a report. *)
Definition report_detail (data : json) : option (gmap (list N) json) :=
  match data with
  | JDict d =>
      match default (JDict ∅) (d !! U "detail") with
      | JDict det => Some det
      | _ => None
      end
  | _ => None
  end.

(** [detail.severity.<name>], when the report has it. *)
Definition severity_field (data : json) (name : pystr) : option json :=
  det ← report_detail data;
  match det !! U "severity" with
  | Some (JDict sev) => sev !! name
  | _ => None
  end.

(** The severity score of a report: [detail.severity.score] as an integer.
    [None] when the score is absent or cannot be coerced. *)
Definition report_score (py : python) (data : json) : option Z :=
  v ← severity_field data (U "score");
  match Py.int py v with Ok z => Some z | Raise _ => None end.

(** [detail.resourcesAffected], when present. *)
Definition resources_affected (data : json) : option json :=
  det ← report_detail data; det !! U "resourcesAffected".

(** [resourcesAffected] is absent or empty. *)
Definition resources_missing (data : json) : bool :=
  match resources_affected data with
  | None => true
  | Some r => negb (Py.truthy r)
  end.

(** The affected resource: [resourcesAffected.s3Bucket.name],
    [resourcesAffected.s3Object.key] and
    [resourcesAffected.s3Object.versionId] ([None] when there is none). *)
Definition affected_resource (data : json) : option (json * json * json) :=
  r ← resources_affected data;
  match r with
  | JDict rd =>
      match rd !! U "s3Bucket", rd !! U "s3Object" with
      | Some (JDict bd), Some (JDict od) =>
          b ← bd !! U "name";
          k ← od !! U "key";
          Some (b, k, default JNull (od !! U "versionId"))
      | _, _ => None
      end
  | _ => None
  end.

(** The tag-put and the lifecycle-put of an affected resource. *)
Definition tag_put (py : python) (cfg : Tagger.config) (desc : json)
    (res : json * json * json) : s3_call :=
  let '(bucket, key, version_id) := res in
  put_object_tagging bucket key
    [(Tagger.TAG_KEY_NAME cfg, Py.str py desc)] (version_param version_id).

Definition lifecycle_put (cfg : Tagger.config) (res : json * json * json)
    : s3_call :=
  let '(bucket, key, _) := res in
  put_bucket_lifecycle_configuration bucket (Tagger.lifecycle_rules cfg key).

Definition is_tag_put (c : s3_call) : bool :=
  match c with put_object_tagging _ _ _ _ => true | _ => false end.
Definition is_lifecycle_put (c : s3_call) : bool :=
  match c with put_bucket_lifecycle_configuration _ _ => true | _ => false end.

(** How many times a counter was incremented. *)
Definition increments (name : string) (ms : list (string * Z)) : nat :=
  length (filter (fun m => String.eqb (fst m) name) ms).

(** What [process_record] does once the report is there. *)
Definition process_report (py : python) (s3 : s3_client) (cfg : Tagger.config)
    (data : json) : M unit :=
  if negb (Py.truthy data) then add_metric "EmptyObject" 1
  else
    detail <- lift (Py.get data (U "detail") (JDict ∅)) ;;
    severity <- lift (Py.getitem detail (U "severity")) ;;
    score <- lift (Py.getitem severity (U "score")) ;;
    severity_score <- lift (Py.int py score) ;;
    severity_desc <- lift (Py.getitem severity (U "description")) ;;
    resourcesAffected <-
      lift (Py.get detail (U "resourcesAffected") (JDict ∅)) ;;
    if negb (Py.truthy resourcesAffected)
    then add_metric "MissingResources" 1
    else
      s3Bucket <- lift (Py.getitem resourcesAffected (U "s3Bucket")) ;;
      affected_bucket <- lift (Py.getitem s3Bucket (U "name")) ;;
      s3Object <- lift (Py.getitem resourcesAffected (U "s3Object")) ;;
      affected_key <- lift (Py.getitem s3Object (U "key")) ;;
      affected_version <- lift (Py.get s3Object (U "versionId") JNull) ;;
      if severity_score <? Tagger.SCORE_THRESHOLD cfg
      then add_metric "TaggingSkipped" 1
      else
        Tagger.tag_object py s3 cfg severity_desc affected_bucket affected_key
          affected_version ;;;
        Tagger.lifecycle_config s3 cfg affected_bucket affected_key.

(** The state once a call has been made. *)
Definition called (c : s3_call) (st : state) : state :=
  {| calls := calls st ++ [c]; metrics := metrics st |}.

(** The state once a counter has been incremented. *)
Definition counted (name : string) (st : state) : state :=
  {| calls := calls st; metrics := metrics st ++ [(name, 1)] |}.

(** The pieces after the first of a chunk split at ['%'], unquoted and
    joined. *)
Definition unquote_items (items : list (list N)) : list N :=
  concat (map Urllib.unquote_item items).

(** The pieces of [x ++ y], from the pieces of [x] and the pieces
    [extra :: more] of [y]: the last piece of [x] goes on with [extra]. *)
Fixpoint graft (pieces : list (list N)) (extra : list N)
    (more : list (list N)) : list (list N) :=
  match pieces with
  | [] => extra :: more
  | [h] => (h ++ extra) :: more
  | h :: t => h :: graft t extra more
  end.

(** Whether the exception of a call, if any, leaves a handler that catches
    [ClientError] only. *)
Definition escapes (answer : outcome body) : option exn :=
  match answer with
  | Raise e => if is_ClientError e then None else Some e
  | Ok _ => None
  end.

(** The result of a call made under [except ClientError]. *)
Definition guarded (answer : outcome body) : outcome unit :=
  match escapes answer with
  | Some e => Raise e
  | None => Ok tt
  end.

(** The counter that [tag_object] increments, if any. *)
Definition tagging_counter (answer : outcome body) : list (string * Z) :=
  match answer with
  | Ok _ => [("TaggingSuccess"%string, 1)]
  | Raise e => if is_ClientError e then [("TaggingFailed"%string, 1)] else []
  end.

(** A property of a custom resource request:
    [event["ResourceProperties"][name]], when it is there. *)
Definition request_property (event : json) (name : pystr) : option json :=
  match event with
  | JDict ev =>
      match default (JDict ∅) (ev !! U "ResourceProperties") with
      | JDict props => props !! name
      | _ => None
      end
  | _ => None
  end.

(** A property is absent or empty. *)
Definition property_missing (event : json) (name : pystr) : bool :=
  match request_property event name with
  | None => true
  | Some v => negb (Py.truthy v)
  end.

(** The envelope of a record: [record["s3"][group][name]], when it is
    there. *)
Definition envelope_field (record : json) (group name : pystr) : option json :=
  match record with
  | JDict r =>
      match r !! U "s3" with
      | Some (JDict s) =>
          match s !! group with
          | Some (JDict g) => g !! name
          | _ => None
          end
      | _ => None
      end
  | _ => None
  end.

(** A record in which the fields that are present have the types of the
    envelope: [s3], [s3.bucket] and [s3.object] are objects and
    [s3.object.key] is a string. Any of them may be lacking. *)
Definition typed_envelope (record : json) : bool :=
  match record with
  | JDict r =>
      match r !! U "s3" with
      | None => true
      | Some (JDict s) =>
          match s !! U "bucket" with
          | None | Some (JDict _) => true
          | _ => false
          end &&
          match s !! U "object" with
          | None => true
          | Some (JDict o) =>
              match o !! U "key" with
              | None | Some (JStr _) => true
              | _ => false
              end
          | _ => false
          end
      | _ => false
      end
  | _ => false
  end.

(** ** Values for the examples *)

(** A runtime for the examples: [int()] reads plain ASCII decimal digits,
    [str()] is exact on [None], booleans and integers (no other value that
    is not a [str] is rendered in the examples). *)
Fixpoint digits_value (acc : Z) (s : pystr) : option Z :=
  match s with
  | [] => Some acc
  | c :: s' =>
      if ((48 <=? c) && (c <=? 57))%N
      then digits_value (10 * acc + (Z.of_N c - 48)) s'
      else None
  end.

Definition py0 : python := {|
  int_of_str := fun s => match s with [] => None | _ => digits_value 0 s end;
  str_of_value := fun v =>
    match v with
    | JNull => U "None"
    | JBool true => U "True"
    | JBool false => U "False"
    | JInt z => U (DecimalString.NilZero.string_of_int (Z.to_int z))
    | _ => U "..."
    end;
|}.

(** The configuration when no variable is set in the environment. *)
Definition default_config : Tagger.config := {|
  Tagger.TAG_KEY_NAME := U "Severity";
  Tagger.SCORE_THRESHOLD := 3;
  Tagger.GLACIER_TRANSITION_DAYS := 365;
  Tagger.EXPIRE_OBJECTS_DAYS := 1825;
|}.

Definition initial : state := {| calls := []; metrics := [] |}.

(** A record of an S3 event notification. *)
Definition record_of (bucket key : string) : json :=
  JDict {[ U "s3" :=
    JDict {[ U "bucket" := JDict {[ U "name" := JStr (U bucket) ]};
             U "object" := JDict {[ U "key" := JStr (U key) ]} ]} ]}.

Definition severity_of (score : Z) (description : string) : json :=
  JDict {[ U "score" := JInt score; U "description" := JStr (U description) ]}.

Definition resource_of (bucket key : string) : json :=
  JDict {[ U "s3Bucket" := JDict {[ U "name" := JStr (U bucket) ]};
           U "s3Object" := JDict {[ U "key" := JStr (U key) ]} ]}.

(** A finding about an object, and a finding that is not about an
    object. *)
Definition report_of (score : Z) (description bucket key : string) : json :=
  JDict {[ U "detail" :=
    JDict {[ U "severity" := severity_of score description;
             U "resourcesAffected" := resource_of bucket key ]} ]}.

Definition unscoped_report_of (score : Z) (description : string) : json :=
  JDict {[ U "detail" :=
    JDict {[ U "severity" := severity_of score description ]} ]}.

(** A service that holds the same report under every key and accepts every
    other call. *)
Definition serving (report : json) : s3_client :=
  fun _ c =>
    match c with
    | get_object _ _ _ => Ok (Ok report)
    | _ => Ok (Ok JNull)
    end.

(** The same service when the tag-put raises [e]. *)
Definition serving_tag_put_raising (e : exn) (report : json) : s3_client :=
  fun _ c =>
    match c with
    | get_object _ _ _ => Ok (Ok report)
    | put_object_tagging _ _ _ _ => Raise e
    | _ => Ok (Ok JNull)
    end.

(** A service that holds the given objects (whatever the bucket), answers
    [ClientError] for any other key, rejects a key that is not a [str], and
    accepts every other call. *)
Definition holding (objects : list (string * json)) : s3_client :=
  fun _ c =>
    match c with
    | get_object _ (JStr k) _ =>
        match find (fun o => bool_decide (U (fst o) = k)) objects with
        | Some o => Ok (Ok (snd o))
        | None => Raise ClientError
        end
    | get_object _ _ _ => Raise BotoCoreError
    | _ => Ok (Ok JNull)
    end.

(** The event of a list of records. *)
Definition event_of (records : list json) : json :=
  JDict {[ U "Records" := JList records ]}.

(** A custom resource request. *)
Definition request_of (properties : gmap (list N) json) : json :=
  JDict {[ U "RequestType" := JStr (U "Create");
           U "ResourceProperties" := JDict properties ]}.

(** A notification configuration. *)
Definition notifications : json :=
  JDict {[ U "EventBridgeConfiguration" := JDict ∅;
           U "QueueConfigurations" := JList [] ]}.

(** A service in which the bucket notification cannot be put. *)
Definition denying_notifications : s3_client :=
  fun _ c =>
    match c with
    | put_bucket_notification_configuration _ _ => Raise ClientError
    | _ => Ok (Ok JNull)
    end.

(** ** Vocabulary of the further properties *)

(** The counters of the tagger. *)
Definition tagger_counters : list string :=
  [ "EmptyObject"; "MissingResources"; "TaggingSkipped"; "TaggingFailed";
    "TaggingSuccess" ]%string.

(** The exceptions that the expressions of the handlers raise themselves
    ([.get] on what is not a [dict], subscripts, [int()], [len()]). *)
Definition builtin_exn (e : exn) : bool :=
  match e with
  | AttributeError | KeyError | TypeError | ValueError | OverflowError => true
  | _ => false
  end.

(** A service out of reach: every call raises [e]. *)
Definition unreachable (e : exn) : s3_client := fun _ _ => Raise e.

Definition is_get_object (c : s3_call) : bool :=
  match c with get_object _ _ _ => true | _ => false end.

(** What processing [n] records may leave behind, from [st] to [st']: calls
    and metrics are only added, at most three calls and one counter a
    record, the calls being fetches, tag-puts and lifecycle-puts, the
    counters being those of the tagger, each incremented by one. *)
Definition within_footprint (n : nat) (st st' : state) : Prop :=
  exists new added,
    calls st' = calls st ++ new /\ metrics st' = metrics st ++ added /\
    (length new <= 3 * n)%nat /\ (length added <= n)%nat /\
    (forall c, In c new ->
       is_get_object c || is_tag_put c || is_lifecycle_put c = true) /\
    (forall m, In m added -> In (fst m) tagger_counters /\ snd m = 1).

(** A Unicode scalar value: a code point that is not a surrogate. *)
Definition scalar_value (c : N) : bool :=
  ((c <? 1114112) && negb ((55296 <=? c) && (c <? 57344)))%N.

(** The UTF-8 encoding of a scalar value. *)
Definition utf8_encode (c : N) : list N :=
  (if c <? 128 then [c]
   else if c <? 2048 then [192 + c / 64; 128 + c mod 64]
   else if c <? 65536 then
     [224 + c / 64 / 64; 128 + (c / 64) mod 64; 128 + c mod 64]
   else
     [240 + c / 64 / 64 / 64; 128 + (c / 64 / 64) mod 64;
      128 + (c / 64) mod 64; 128 + c mod 64])%N.

(** The escapes of a sequence of bytes: for each byte, ['%'] and its two
    hexadecimal digits, of either case. *)
Inductive escaped : list N -> list N -> Prop :=
| escaped_nil : escaped [] []
| escaped_cons b bs h1 h2 x y q :
    Urllib.hex_value h1 = Some x -> Urllib.hex_value h2 = Some y ->
    (16 * x + y)%N = b -> escaped bs q ->
    escaped (b :: bs) (37 :: h1 :: h2 :: q)%N.

(** [url_encoded s q]: [q] is a URL encoding of the text [s], as the keys of
    S3 event records are encoded. A character is written as the escapes of its
    UTF-8 bytes; a space may be written ['+'] instead, and an ASCII character
    other than ['%'] and ['+'] may be written as it is. Which characters
    are escaped is left to the encoder. *)
Inductive url_encoded : pystr -> pystr -> Prop :=
| url_encoded_nil : url_encoded [] []
| url_encoded_plain c s q :
    (c < 128)%N -> c <> 37%N -> c <> 43%N -> url_encoded s q ->
    url_encoded (c :: s) (c :: q)
| url_encoded_space s q :
    url_encoded s q -> url_encoded (32%N :: s) (43%N :: q)
| url_encoded_escape c s e q :
    scalar_value c = true -> escaped (utf8_encode c) e -> url_encoded s q ->
    url_encoded (c :: s) (e ++ q).

(** * Properties *)

(** ** The record and the fetch *)

Lemma process_record_located py s3 cfg record loc st :
  report_location record = Ok loc ->
  Tagger.process_record py s3 cfg record st
  = process_report py s3 cfg (fetched s3 (calls st) loc)
      (called (fetch_call loc) st).
Proof.
  unfold report_location, record_field, Tagger.process_record, bind, lift.
  destruct (Py.get record (U "s3") (JDict ∅)) as [s3_|]; [|discriminate].
  destruct (Py.get s3_ (U "bucket") (JDict ∅)) as [b_|]; [|discriminate].
  destruct (Py.get b_ (U "name") JNull) as [b|]; [|discriminate].
  destruct (Py.get s3_ (U "object") (JDict ∅)) as [o_|]; [|discriminate].
  destruct (Py.get o_ (U "key") JNull) as [k|]; [|discriminate].
  destruct (Py.truthy k);
    [destruct (Tagger.unquote_plus k) as [k'|]; [|discriminate]|];
    (destruct (Py.get o_ (U "versionId") JNull) as [v|]; [|discriminate]);
    intros [= <-]; unfold ret, Tagger.get_json_object, try_except_else, bind,
      s3_request, lift, fetched, fetch_call, called, process_report; simpl.
  - destruct (s3 (calls st) _) as [[v'|]|]; reflexivity.
  - destruct (s3 (calls st) _) as [[v'|]|]; reflexivity.
Qed.

Lemma process_record_unlocated py s3 cfg record e st :
  report_location record = Raise e ->
  Tagger.process_record py s3 cfg record st = (Raise e, st).
Proof.
  unfold report_location, record_field, Tagger.process_record, bind, lift.
  destruct (Py.get record (U "s3") (JDict ∅)) as [s3_|];
    [|intros [= ->]; reflexivity].
  destruct (Py.get s3_ (U "bucket") (JDict ∅)) as [b_|];
    [|intros [= ->]; reflexivity].
  destruct (Py.get b_ (U "name") JNull) as [b|];
    [|intros [= ->]; reflexivity].
  destruct (Py.get s3_ (U "object") (JDict ∅)) as [o_|];
    [|intros [= ->]; reflexivity].
  destruct (Py.get o_ (U "key") JNull) as [k|];
    [|intros [= ->]; reflexivity].
  destruct (Py.truthy k);
    [destruct (Tagger.unquote_plus k) as [k'|];
       [|intros [= ->]; reflexivity]|];
    (destruct (Py.get o_ (U "versionId") JNull) as [v|];
       [discriminate|intros [= ->]; reflexivity]).
Qed.

(** ** The report *)

Lemma truthy_dict_lookup (d : gmap (list N) json) k x :
  d !! k = Some x -> Py.truthy (JDict d) = true.
Proof.
  intros H. simpl. apply negb_true_iff, Nat.eqb_neq.
  apply (map_size_ne_0_lookup_2 d k). rewrite H. eauto.
Qed.

Lemma truthy_empty_dict : Py.truthy (JDict ∅) = false.
Proof. simpl. rewrite map_size_empty. reflexivity. Qed.

Lemma report_detail_truthy data det k x :
  report_detail data = Some det -> det !! k = Some x ->
  Py.truthy data = true.
Proof.
  destruct data as [| | | | |l|d]; try discriminate. unfold report_detail.
  destruct (d !! U "detail") as [y|] eqn:E; simpl.
  - intros _ _. eapply truthy_dict_lookup, E.
  - intros [= <-]. rewrite lookup_empty. discriminate.
Qed.

Lemma report_detail_get data det :
  report_detail data = Some det ->
  Py.get data (U "detail") (JDict ∅) = Ok (JDict det).
Proof.
  destruct data as [| | | | |l|d]; try discriminate. unfold report_detail. simpl.
  destruct (default (JDict ∅) (d !! U "detail")); try discriminate.
  intros [= ->]. reflexivity.
Qed.

(** A report with a score is a non-empty object whose [detail.severity] is
    an object. *)
Lemma report_score_inv py data s :
  report_score py data = Some s ->
  exists det sev v,
    report_detail data = Some det /\ det !! U "severity" = Some (JDict sev) /\
    sev !! U "score" = Some v /\ Py.int py v = Ok s /\
    Py.truthy data = true.
Proof.
  unfold report_score, severity_field.
  destruct (report_detail data) as [det|] eqn:Hdet; [|discriminate]. simpl.
  destruct (det !! U "severity") as [[| | | | | |sev]|] eqn:Hsev; try discriminate.
  destruct (sev !! U "score") as [v|] eqn:Hv; [|discriminate]. simpl.
  destruct (Py.int py v) as [z|] eqn:Hz; [|discriminate].
  intros [= <-]. exists det, sev, v. repeat split; try assumption.
  eapply report_detail_truthy; eassumption.
Qed.

(** A truthy report without a usable score makes [process_record] raise
    right after the fetch. *)
Lemma process_report_no_score py s3 cfg data st :
  Py.truthy data = true -> report_score py data = None ->
  exists e, process_report py s3 cfg data st = (Raise e, st).
Proof.
  intros Ht. unfold process_report, report_score, severity_field. rewrite Ht. simpl.
  unfold bind, lift.
  destruct (report_detail data) as [det|] eqn:Hdet; simpl.
  - rewrite (report_detail_get _ _ Hdet). simpl.
    destruct (det !! U "severity") as [sev|] eqn:Hsev; [|eauto].
    destruct sev as [| | | | | |sev]; simpl; eauto.
    destruct (sev !! U "score") as [v|] eqn:Hv; simpl; [|eauto].
    destruct (Py.int py v); [discriminate|eauto].
  - intros _. destruct data as [| | | | |l|d]; simpl; eauto.
    unfold report_detail in Hdet.
    destruct (default (JDict ∅) (d !! U "detail")); simpl; eauto. discriminate.
Qed.

Lemma process_report_empty py s3 cfg data st :
  Py.truthy data = false ->
  process_report py s3 cfg data st = (Ok tt, counted "EmptyObject" st).
Proof. intros Ht. unfold process_report. rewrite Ht. reflexivity. Qed.

Lemma resources_missing_get data det :
  report_detail data = Some det ->
  negb (Py.truthy (default (JDict ∅) (det !! U "resourcesAffected")))
  = resources_missing data.
Proof.
  intros Hdet. unfold resources_missing, resources_affected. rewrite Hdet. simpl.
  destruct (det !! U "resourcesAffected"); simpl; [reflexivity|].
  rewrite map_size_empty. reflexivity.
Qed.

(** What remains of [process_report] once score and description are read. *)
Lemma process_report_scored py s3 cfg data s desc st :
  report_score py data = Some s ->
  severity_field data (U "description") = Some desc ->
  process_report py s3 cfg data st =
    if resources_missing data then (Ok tt, counted "MissingResources" st)
    else
      match affected_resource data with
      | Some (b, k, v) =>
          if s <? Tagger.SCORE_THRESHOLD cfg
          then (Ok tt, counted "TaggingSkipped" st)
          else (Tagger.tag_object py s3 cfg desc b k v ;;;
                Tagger.lifecycle_config s3 cfg b k) st
      | None => process_report py s3 cfg data st
      end.
Proof.
  intros Hs Hd.
  destruct (report_score_inv _ _ _ Hs) as (det & sev & v & Hdet & Hsev & Hv & Hz & Ht).
  rewrite <- (resources_missing_get _ _ Hdet).
  unfold severity_field in Hd. rewrite Hdet in Hd. simpl in Hd. rewrite Hsev in Hd.
  unfold affected_resource, resources_affected. rewrite Hdet. simpl.
  unfold process_report. rewrite Ht. simpl. unfold bind, lift.
  rewrite (report_detail_get _ _ Hdet). simpl.
  rewrite Hsev. simpl. rewrite Hv, Hz, Hd.
  destruct (det !! U "resourcesAffected") as [r|] eqn:Hr; simpl;
    [|rewrite map_size_empty; reflexivity].
  destruct (Py.truthy r) eqn:Hrt; simpl; [|reflexivity].
  destruct r as [| | | | | |rd]; try reflexivity.
  destruct (rd !! U "s3Bucket") as [[| | | | | |bd]|] eqn:Hb; try reflexivity.
  destruct (rd !! U "s3Object") as [[| | | | | |od]|] eqn:Ho; try reflexivity.
  simpl.
  destruct (bd !! U "name") as [b|] eqn:Hbn; simpl; [|reflexivity].
  destruct (od !! U "key") as [k|] eqn:Hok; simpl; [|reflexivity].
  rewrite Hb; simpl; rewrite Hbn, Ho; simpl; rewrite Hok.
  destruct (s <? Tagger.SCORE_THRESHOLD cfg); reflexivity.
Qed.


Lemma process_report_no_description py s3 cfg data s st :
  report_score py data = Some s ->
  severity_field data (U "description") = None ->
  process_report py s3 cfg data st = (Raise KeyError, st).
Proof.
  intros Hs Hd.
  destruct (report_score_inv _ _ _ Hs) as (det & sev & v & Hdet & Hsev & Hv & Hz & Ht).
  unfold severity_field in Hd. rewrite Hdet in Hd. simpl in Hd. rewrite Hsev in Hd.
  unfold process_report. rewrite Ht. simpl. unfold bind, lift.
  rewrite (report_detail_get _ _ Hdet). simpl.
  rewrite Hsev. simpl. rewrite Hv, Hz, Hd. reflexivity.
Qed.

Lemma process_report_malformed py s3 cfg data s desc st :
  report_score py data = Some s ->
  severity_field data (U "description") = Some desc ->
  resources_missing data = false ->
  affected_resource data = None ->
  exists e, process_report py s3 cfg data st = (Raise e, st).
Proof.
  intros Hs Hd.
  destruct (report_score_inv _ _ _ Hs) as (det & sev & v & Hdet & Hsev & Hv & Hz & Ht).
  rewrite <- (resources_missing_get _ _ Hdet).
  unfold severity_field in Hd. rewrite Hdet in Hd. simpl in Hd. rewrite Hsev in Hd.
  unfold affected_resource, resources_affected. rewrite Hdet. simpl.
  unfold process_report. rewrite Ht. simpl. unfold bind, lift.
  rewrite (report_detail_get _ _ Hdet). simpl.
  rewrite Hsev. simpl. rewrite Hv, Hz, Hd.
  destruct (det !! U "resourcesAffected") as [r|] eqn:Hr; simpl;
    [|rewrite map_size_empty; discriminate].
  intros Hrt. apply negb_false_iff in Hrt. rewrite Hrt. simpl.
  destruct r as [| | | | | |rd]; simpl; eauto.
  destruct (rd !! U "s3Bucket") as [[| | | | | |bd]|] eqn:Hb; simpl; eauto.
  destruct (bd !! U "name") as [b|] eqn:Hbn; simpl; eauto.
  destruct (rd !! U "s3Object") as [[| | | | | |od]|] eqn:Ho; simpl; eauto.
  destruct (od !! U "key") as [k|] eqn:Hok; simpl; eauto. discriminate.
Qed.

Lemma affected_resource_not_missing data res :
  affected_resource data = Some res -> resources_missing data = false.
Proof.
  unfold affected_resource, resources_missing.
  destruct (resources_affected data) as [[| | | | | |rd]|]; try discriminate.
  simpl. destruct (rd !! U "s3Bucket") as [x|] eqn:Hb; [|discriminate].
  intros _. apply negb_false_iff. eapply truthy_dict_lookup, Hb.
Qed.

(** ** Tagging and lifecycle *)

Lemma tag_object_run py s3 cfg desc b k v st :
  let tag := tag_put py cfg desc (b, k, v) in
  let answer := s3 (calls st) tag in
  Tagger.tag_object py s3 cfg desc b k v st
  = (guarded answer,
     {| calls := calls st ++ [tag];
        metrics := metrics st ++ tagging_counter answer |}).
Proof.
  unfold Tagger.tag_object, try_except_else, s3_request, add_metric, guarded,
    escapes, tagging_counter, tag_put. simpl.
  destruct (s3 (calls st) _) as [a|e]; simpl; [reflexivity|].
  destruct (is_ClientError e); simpl; [reflexivity|].
  rewrite app_nil_r. reflexivity.
Qed.

Lemma lifecycle_config_run s3 cfg b k v st :
  let put := lifecycle_put cfg (b, k, v) in
  Tagger.lifecycle_config s3 cfg b k st
  = (guarded (s3 (calls st) put), called put st).
Proof.
  unfold Tagger.lifecycle_config, try_except_else, s3_request, ret, guarded,
    escapes, lifecycle_put, called. simpl.
  destruct (s3 (calls st) _) as [a|e]; simpl; [reflexivity|].
  destruct (is_ClientError e); reflexivity.
Qed.

(** The two steps at or above the threshold. *)
Lemma remediation_run py s3 cfg desc b k v st :
  let tag := tag_put py cfg desc (b, k, v) in
  let put := lifecycle_put cfg (b, k, v) in
  let answer := s3 (calls st) tag in
  (Tagger.tag_object py s3 cfg desc b k v ;;;
   Tagger.lifecycle_config s3 cfg b k) st
  = match escapes answer with
    | Some e =>
        (Raise e, {| calls := calls st ++ [tag]; metrics := metrics st |})
    | None =>
        (guarded (s3 (calls st ++ [tag]) put),
         {| calls := calls st ++ [tag; put];
            metrics := metrics st ++ tagging_counter answer |})
    end.
Proof.
  intros tag put answer. unfold bind. rewrite tag_object_run.
  fold tag. fold answer. unfold guarded at 1.
  destruct (escapes answer) as [e|] eqn:He.
  - f_equal. f_equal. unfold escapes, tagging_counter in *. subst answer.
    destruct (s3 (calls st) tag) as [a|e']; [discriminate|].
    destruct (is_ClientError e'); [discriminate|]. apply app_nil_r.
  - rewrite (lifecycle_config_run s3 cfg b k v). fold put. unfold called. simpl.
    rewrite <- app_assoc. reflexivity.
Qed.

(** ** The threshold decision *)

(** C1, as stated, fails: a finding below the threshold that is not about
    an object (no [resourcesAffected]) increments ['MissingResources'], and
    ['TaggingSkipped'] is not incremented. *)
Lemma C1_counterexample :
  let s3 := serving (unscoped_report_of 2 "Low") in
  let record := record_of "b" "report.json" in
  let loc := (JStr (U "b"), JStr (U "report.json"), JNull) in
  report_location record = Ok loc /\
  report_score py0 (fetched s3 [] loc) = Some 2 /\
  2 < Tagger.SCORE_THRESHOLD default_config /\
  Tagger.process_record py0 s3 default_config record initial
  = (Ok tt, {| calls := [fetch_call loc];
               metrics := [("MissingResources"%string, 1)] |}) /\
  increments "TaggingSkipped"
    (metrics (snd (Tagger.process_record py0 s3 default_config record initial)))
  = 0%nat.
Proof. vm_compute. repeat split; reflexivity. Qed.

(** C1 (amended): for every record whose fetched report has a severity
    score [s] strictly below the threshold, [process_record] makes no call
    but the fetch (so no tag-put and no lifecycle-put); when the report also
    has a severity description and a [resourcesAffected] with
    [s3Bucket.name] and [s3Object.key], it returns normally and increments
    ['TaggingSkipped'] exactly once, and no other counter. *)
Theorem C1_below_threshold py s3 cfg record loc s st :
  report_location record = Ok loc ->
  report_score py (fetched s3 (calls st) loc) = Some s ->
  s < Tagger.SCORE_THRESHOLD cfg ->
  calls (snd (Tagger.process_record py s3 cfg record st))
  = calls st ++ [fetch_call loc] /\
  (is_Some (severity_field (fetched s3 (calls st) loc) (U "description")) ->
   is_Some (affected_resource (fetched s3 (calls st) loc)) ->
   Tagger.process_record py s3 cfg record st
   = (Ok tt, counted "TaggingSkipped" (called (fetch_call loc) st))).
Proof.
  intros Hloc Hs Hlt. rewrite (process_record_located _ _ _ _ _ _ Hloc).
  set (data := fetched s3 (calls st) loc) in *.
  set (st1 := called (fetch_call loc) st).
  destruct (severity_field data (U "description")) as [desc|] eqn:Hd.
  - rewrite (process_report_scored _ _ _ _ _ _ _ Hs Hd).
    destruct (resources_missing data) eqn:Hm.
    + split; [reflexivity|]. intros _ [res Hres].
      apply affected_resource_not_missing in Hres. congruence.
    + destruct (affected_resource data) as [[[b k] v]|] eqn:Hres.
      * apply Z.ltb_lt in Hlt. rewrite Hlt. split; [reflexivity|auto].
      * destruct (process_report_malformed py s3 cfg data s desc st1 Hs Hd Hm Hres)
          as [e ->].
        split; [reflexivity|]. intros _ [x Hx]. discriminate.
  - rewrite (process_report_no_description _ _ _ _ _ _ Hs Hd).
    split; [reflexivity|]. intros [x Hx]. discriminate.
Qed.

Lemma C1_below_threshold_witness :
  let s3 := serving (report_of 2 "Low" "data" "secret.csv") in
  let record := record_of "b" "f%2Bx.json" in
  let loc := (JStr (U "b"), JStr (U "f+x.json"), JNull) in
  calls (snd (Tagger.process_record py0 s3 default_config record initial))
  = [fetch_call loc] /\
  Tagger.process_record py0 s3 default_config record initial
  = (Ok tt, {| calls := [fetch_call loc];
               metrics := [("TaggingSkipped"%string, 1)] |}).
Proof.
  intros s3 record loc.
  destruct (C1_below_threshold py0 s3 default_config record loc 2 initial)
    as [Hcalls Hrun].
  - vm_compute; reflexivity.
  - vm_compute; reflexivity.
  - reflexivity.
  - split; [exact Hcalls|].
    apply Hrun; vm_compute; eexists; reflexivity.
Defined.

(** At or above the threshold, with a description and an affected
    resource: the tag-put, then the lifecycle-put unless the exception of
    the tag-put was not a [ClientError]. *)
Lemma process_record_at_threshold py s3 cfg record loc s desc res st :
  report_location record = Ok loc ->
  report_score py (fetched s3 (calls st) loc) = Some s ->
  Tagger.SCORE_THRESHOLD cfg <= s ->
  severity_field (fetched s3 (calls st) loc) (U "description") = Some desc ->
  affected_resource (fetched s3 (calls st) loc) = Some res ->
  let history := calls st ++ [fetch_call loc] in
  let tag := tag_put py cfg desc res in
  let put := lifecycle_put cfg res in
  Tagger.process_record py s3 cfg record st
  = match escapes (s3 history tag) with
    | Some e =>
        (Raise e, {| calls := history ++ [tag]; metrics := metrics st |})
    | None =>
        (guarded (s3 (history ++ [tag]) put),
         {| calls := history ++ [tag; put];
            metrics := metrics st ++ tagging_counter (s3 history tag) |})
    end.
Proof.
  intros Hloc Hs Hle Hd Hres. rewrite (process_record_located _ _ _ _ _ _ Hloc).
  rewrite (process_report_scored _ _ _ _ _ _ _ Hs Hd).
  rewrite (affected_resource_not_missing _ _ Hres), Hres.
  destruct res as [[b k] v].
  apply Z.ltb_ge in Hle. rewrite Hle.
  apply (remediation_run py s3 cfg desc b k v (called (fetch_call loc) st)).
Qed.

(** C2, as stated, fails: when the tag-put raises an exception that is not
    a [ClientError] (here a botocore error of the client), the exception
    leaves [process_record] and no lifecycle-put is issued. *)
Lemma C2_counterexample :
  let report := report_of 5 "High" "data" "secret.csv" in
  let s3 := serving_tag_put_raising BotoCoreError report in
  let record := record_of "b" "f%2Bx.json" in
  let st := snd (Tagger.process_record py0 s3 default_config record initial) in
  report_score py0 report = Some 5 /\
  Tagger.SCORE_THRESHOLD default_config <= 5 /\
  resources_missing report = false /\
  length (filter is_tag_put (calls st)) = 1%nat /\
  length (filter is_lifecycle_put (calls st)) = 0%nat.
Proof. vm_compute. repeat split; try reflexivity. discriminate. Qed.

(** C2 (amended): for every record whose fetched report has a severity
    score [s >= T], a severity description and a [resourcesAffected] with
    [s3Bucket.name] and [s3Object.key], [process_record] issues, after the
    fetch, exactly one tag-put whose tag value is [str()] of the description
    (the description itself when it is a string), on the bucket and key of
    [resourcesAffected], with its version identifier when it has a non-empty
    one, and then, unless the tag-put raised an exception other than
    [ClientError], exactly one lifecycle-put on the bucket of
    [resourcesAffected] whose rule prefix is the key of [resourcesAffected].
    This holds whether the tag-put succeeds or fails with a [ClientError],
    and whether or not the lifecycle-put succeeds. *)
Theorem C2_at_threshold_calls py s3 cfg record loc s desc res st :
  report_location record = Ok loc ->
  report_score py (fetched s3 (calls st) loc) = Some s ->
  Tagger.SCORE_THRESHOLD cfg <= s ->
  severity_field (fetched s3 (calls st) loc) (U "description") = Some desc ->
  affected_resource (fetched s3 (calls st) loc) = Some res ->
  let history := calls st ++ [fetch_call loc] in
  let tag :=
    put_object_tagging res.1.1 res.1.2
      [(Tagger.TAG_KEY_NAME cfg, Py.str py desc)] (version_param res.2) in
  let put :=
    put_bucket_lifecycle_configuration res.1.1
      [ {| Filter_Prefix := res.1.2;
           Status := "Enabled";
           NoncurrentVersionTransitions :=
             [(Tagger.GLACIER_TRANSITION_DAYS cfg, "GLACIER"%string)];
           NoncurrentVersionExpiration := Tagger.EXPIRE_OBJECTS_DAYS cfg |} ] in
  calls (snd (Tagger.process_record py s3 cfg record st))
  = history ++ tag :: match escapes (s3 history tag) with
                      | Some _ => []
                      | None => [put]
                      end /\
  (forall d, desc = JStr d -> Py.str py desc = d).
Proof.
  intros Hloc Hs Hle Hd Hres history tag put.
  rewrite (process_record_at_threshold _ _ _ _ _ _ _ _ _ Hloc Hs Hle Hd Hres).
  destruct res as [[b k] v]. simpl in tag, put.
  change (tag_put py cfg desc (b, k, v)) with tag.
  change (lifecycle_put cfg (b, k, v)) with put.
  fold history. split.
  - destruct (escapes (s3 history tag)); reflexivity.
  - intros d ->. reflexivity.
Qed.

Lemma C2_at_threshold_calls_witness :
  calls (snd (Tagger.process_record py0
                (serving_tag_put_raising ClientError
                   (report_of 5 "High" "data" "secret.csv"))
                default_config (record_of "b" "f%2Bx.json") initial))
  = [ get_object (JStr (U "b")) (JStr (U "f+x.json")) None;
      put_object_tagging (JStr (U "data")) (JStr (U "secret.csv"))
        [(U "Severity", U "High")] None;
      put_bucket_lifecycle_configuration (JStr (U "data"))
        [ {| Filter_Prefix := JStr (U "secret.csv");
             Status := "Enabled";
             NoncurrentVersionTransitions := [(365, "GLACIER"%string)];
             NoncurrentVersionExpiration := 1825 |} ] ].
Proof.
  refine (proj1 (C2_at_threshold_calls py0
           (serving_tag_put_raising ClientError
              (report_of 5 "High" "data" "secret.csv"))
           default_config (record_of "b" "f%2Bx.json")
           (JStr (U "b"), JStr (U "f+x.json"), JNull) 5 (JStr (U "High"))
           (JStr (U "data"), JStr (U "secret.csv"), JNull) initial
           _ _ _ _ _)).
  - vm_compute; reflexivity.
  - vm_compute; reflexivity.
  - vm_compute; discriminate.
  - vm_compute; reflexivity.
  - vm_compute; reflexivity.
Defined.

(** C3, as stated, fails: not every failure of the tag-put is swallowed.
    An exception that is not a [ClientError] leaves [process_record]; no
    failure counter is incremented and the lifecycle-put is not attempted. *)
Lemma C3_counterexample :
  let report := report_of 4 "Medium" "data" "a.csv" in
  let s3 := serving_tag_put_raising BotoCoreError report in
  Tagger.process_record py0 s3 default_config (record_of "b" "r.json") initial
  = (Raise BotoCoreError,
     {| calls :=
          [ get_object (JStr (U "b")) (JStr (U "r.json")) None;
            put_object_tagging (JStr (U "data")) (JStr (U "a.csv"))
              [(U "Severity", U "Medium")] None ];
        metrics := [] |}).
Proof. vm_compute. reflexivity. Qed.

(** C3 (amended): when the tag-put raises a [ClientError] during
    [process_record], the error is not propagated: ['TaggingFailed'] is
    incremented and the lifecycle-put is attempted next, its own outcome
    being the outcome of the record; when the tag-put succeeds,
    ['TaggingSuccess'] is incremented and the lifecycle-put is attempted
    likewise. An exception of the tag-put that is not a [ClientError]
    propagates: no counter is incremented and no lifecycle-put is made. *)
Theorem C3_tag_put_outcomes py s3 cfg record loc s desc res st :
  report_location record = Ok loc ->
  report_score py (fetched s3 (calls st) loc) = Some s ->
  Tagger.SCORE_THRESHOLD cfg <= s ->
  severity_field (fetched s3 (calls st) loc) (U "description") = Some desc ->
  affected_resource (fetched s3 (calls st) loc) = Some res ->
  let history := calls st ++ [fetch_call loc] in
  let tag := tag_put py cfg desc res in
  let put := lifecycle_put cfg res in
  let attempted counter :=
    (guarded (s3 (history ++ [tag]) put),
     {| calls := history ++ [tag; put];
        metrics := metrics st ++ [(counter, 1)] |}) in
  Tagger.process_record py s3 cfg record st
  = match s3 history tag with
    | Ok _ => attempted "TaggingSuccess"%string
    | Raise ClientError => attempted "TaggingFailed"%string
    | Raise e =>
        (Raise e, {| calls := history ++ [tag]; metrics := metrics st |})
    end.
Proof.
  intros Hloc Hs Hle Hd Hres history tag put attempted.
  rewrite (process_record_at_threshold _ _ _ _ _ _ _ _ _ Hloc Hs Hle Hd Hres).
  fold history tag put. subst attempted. unfold escapes, tagging_counter.
  destruct (s3 history tag) as [a|[]]; reflexivity.
Qed.

Lemma C3_tag_put_outcomes_witness :
  Tagger.process_record py0
    (serving_tag_put_raising ClientError (report_of 4 "Medium" "data" "a.csv"))
    default_config (record_of "b" "r.json") initial
  = (Ok tt,
     {| calls :=
          [ get_object (JStr (U "b")) (JStr (U "r.json")) None;
            put_object_tagging (JStr (U "data")) (JStr (U "a.csv"))
              [(U "Severity", U "Medium")] None;
            put_bucket_lifecycle_configuration (JStr (U "data"))
              [ {| Filter_Prefix := JStr (U "a.csv");
                   Status := "Enabled";
                   NoncurrentVersionTransitions := [(365, "GLACIER"%string)];
                   NoncurrentVersionExpiration := 1825 |} ] ];
        metrics := [("TaggingFailed"%string, 1)] |}).
Proof.
  refine (C3_tag_put_outcomes py0
            (serving_tag_put_raising ClientError
               (report_of 4 "Medium" "data" "a.csv"))
            default_config (record_of "b" "r.json")
            (JStr (U "b"), JStr (U "r.json"), JNull) 4 (JStr (U "Medium"))
            (JStr (U "data"), JStr (U "a.csv"), JNull) initial
            _ _ _ _ _).
  - vm_compute; reflexivity.
  - vm_compute; reflexivity.
  - vm_compute; discriminate.
  - vm_compute; reflexivity.
  - vm_compute; reflexivity.
Defined.

(** ** Failures of the fetch *)

(** C4: for every record, if retrieving the report raises (whatever the
    exception) or its body cannot be decoded and parsed, [process_record]
    returns normally: the record yields no data, ['EmptyObject'] is
    incremented once, and the fetch is the only call (no tag-put, no
    lifecycle-put). *)
Theorem C4_fetch_failure_swallowed py s3 cfg record loc st :
  report_location record = Ok loc ->
  fetch_fails s3 (calls st) loc = true ->
  Tagger.process_record py s3 cfg record st
  = (Ok tt,
     {| calls := calls st ++ [fetch_call loc];
        metrics := metrics st ++ [("EmptyObject"%string, 1)] |}).
Proof.
  intros Hloc Hf. rewrite (process_record_located _ _ _ _ _ _ Hloc).
  apply process_report_empty.
  unfold fetch_fails in Hf. unfold fetched.
  destruct (s3 (calls st) (fetch_call loc)) as [[v|e]|e];
    [discriminate|reflexivity|reflexivity].
Qed.

Lemma C4_fetch_failure_swallowed_witness :
  Tagger.process_record py0 (holding []) default_config
    (record_of "b" "gone.json") initial
  = (Ok tt,
     {| calls := [get_object (JStr (U "b")) (JStr (U "gone.json")) None];
        metrics := [("EmptyObject"%string, 1)] |}).
Proof.
  refine (C4_fetch_failure_swallowed py0 (holding []) default_config
            (record_of "b" "gone.json")
            (JStr (U "b"), JStr (U "gone.json"), JNull) initial _ _).
  - vm_compute; reflexivity.
  - vm_compute; reflexivity.
Defined.

(** ** Reports without a usable score *)

Lemma for_each_app body pre rest st0 st :
  for_each body pre st0 = (Ok tt, st) ->
  for_each body (pre ++ rest) st0 = for_each body rest st.
Proof.
  revert st0. induction pre as [|x pre IH]; intros st0; simpl.
  - unfold ret. intros [= ->]. reflexivity.
  - unfold bind. destruct (body x st0) as [[[]|e] st1]; [apply IH|discriminate].
Qed.

Lemma for_each_raise body x rest e st st' :
  body x st = (Raise e, st') ->
  for_each body (x :: rest) st = (Raise e, st').
Proof. intros H. simpl. unfold bind. rewrite H. reflexivity. Qed.

Lemma handler_records (py : python) (s3 : s3_client) (cfg : Tagger.config)
    (ev : gmap (list N) json) (records : list json) (st : state) :
  ev !! U "Records" = Some (JList records) ->
  Tagger.handler py s3 cfg (JDict ev) st
  = for_each (Tagger.process_record py s3 cfg) records st.
Proof.
  intros H. unfold Tagger.handler, bind, lift. simpl. rewrite H. reflexivity.
Qed.

(** C5, as stated, fails: a report that is fetched and parsed but empty
    (here the object [{}], in which [detail.severity.score] is absent) is
    taken as no data before the score is looked at. Nothing is raised, and
    the records after it are processed. *)
Lemma C5_counterexample :
  let s3 := holding [ ("empty.json"%string, JDict ∅);
                      ("next.json"%string, report_of 2 "Low" "data" "x.csv") ] in
  let event := event_of [record_of "b" "empty.json"; record_of "b" "next.json"] in
  let loc := (JStr (U "b"), JStr (U "empty.json"), JNull) in
  fetch_fails s3 [] loc = false /\
  report_score py0 (fetched s3 [] loc) = None /\
  Tagger.handler py0 s3 default_config event initial
  = (Ok tt,
     {| calls := [ get_object (JStr (U "b")) (JStr (U "empty.json")) None;
                   get_object (JStr (U "b")) (JStr (U "next.json")) None ];
        metrics := [ ("EmptyObject"%string, 1);
                     ("TaggingSkipped"%string, 1) ] |}).
Proof. vm_compute. repeat split; reflexivity. Qed.

(** C5 (amended): for every fetched report that is not empty (truthy) and
    in which [detail.severity.score] is absent or not coercible to an
    integer, the error is not caught: it leaves [process_record] right after
    the fetch and leaves [handler], so that none of the records that remain
    in the invocation is processed. *)
Theorem C5_unusable_score_aborts (py : python) (s3 : s3_client)
    (cfg : Tagger.config) (ev : gmap (list N) json)
    (pre : list json) (record : json) (post : list json)
    (loc : json * json * json) (st0 st : state) :
  ev !! U "Records" = Some (JList (pre ++ record :: post)) ->
  for_each (Tagger.process_record py s3 cfg) pre st0 = (Ok tt, st) ->
  report_location record = Ok loc ->
  Py.truthy (fetched s3 (calls st) loc) = true ->
  report_score py (fetched s3 (calls st) loc) = None ->
  exists e,
    Tagger.process_record py s3 cfg record st
    = (Raise e, called (fetch_call loc) st) /\
    Tagger.handler py s3 cfg (JDict ev) st0
    = (Raise e, called (fetch_call loc) st).
Proof.
  intros Hev Hpre Hloc Ht Hs.
  destruct (process_report_no_score py s3 cfg _ (called (fetch_call loc) st) Ht Hs)
    as [e He].
  exists e.
  assert (Hrec : Tagger.process_record py s3 cfg record st
                 = (Raise e, called (fetch_call loc) st)).
  { rewrite (process_record_located _ _ _ _ _ _ Hloc). exact He. }
  split; [exact Hrec|].
  rewrite (handler_records _ _ _ _ _ _ Hev).
  rewrite (for_each_app _ _ _ _ _ Hpre).
  apply for_each_raise, Hrec.
Qed.

Lemma C5_unusable_score_aborts_witness :
  let bad := JDict {[ U "detail" := JDict {[ U "severity" :=
               JDict {[ U "score" := JStr (U "high") ]} ]} ]} in
  let s3' := holding [ ("first.json"%string, report_of 2 "Low" "data" "x.csv");
                       ("bad.json"%string, bad);
                       ("last.json"%string, report_of 5 "High" "data" "y.csv") ] in
  let records := [record_of "b" "first.json"] ++
                 record_of "b" "bad.json" :: [record_of "b" "last.json"] in
  exists e,
    Tagger.process_record py0 s3' default_config (record_of "b" "bad.json")
      {| calls := [get_object (JStr (U "b")) (JStr (U "first.json")) None];
         metrics := [("TaggingSkipped"%string, 1)] |}
    = (Raise e,
       {| calls := [ get_object (JStr (U "b")) (JStr (U "first.json")) None;
                     get_object (JStr (U "b")) (JStr (U "bad.json")) None ];
          metrics := [("TaggingSkipped"%string, 1)] |}) /\
    Tagger.handler py0 s3' default_config (event_of records) initial
    = (Raise e,
       {| calls := [ get_object (JStr (U "b")) (JStr (U "first.json")) None;
                     get_object (JStr (U "b")) (JStr (U "bad.json")) None ];
          metrics := [("TaggingSkipped"%string, 1)] |}).
Proof.
  intros bad s3' records.
  refine (C5_unusable_score_aborts py0 s3' default_config
            {[ U "Records" := JList records ]}
            [record_of "b" "first.json"] (record_of "b" "bad.json")
            [record_of "b" "last.json"]
            (JStr (U "b"), JStr (U "bad.json"), JNull) initial
            {| calls := [get_object (JStr (U "b")) (JStr (U "first.json")) None];
               metrics := [("TaggingSkipped"%string, 1)] |}
            _ _ _ _ _).
  - vm_compute; reflexivity.
  - vm_compute; reflexivity.
  - vm_compute; reflexivity.
  - vm_compute; reflexivity.
  - vm_compute; reflexivity.
Defined.

(** C10, as stated, fails: the empty report [{}] lacks [detail.severity]
    and [resourcesAffected] alike, and [process_record] does not raise for
    it; the record ends on the empty-object path. *)
Lemma C10_counterexample :
  let s3 := serving (JDict ∅) in
  severity_field (fetched s3 [] (JStr (U "b"), JStr (U "r.json"), JNull))
    (U "score") = None /\
  resources_missing (fetched s3 [] (JStr (U "b"), JStr (U "r.json"), JNull))
  = true /\
  Tagger.process_record py0 s3 default_config (record_of "b" "r.json") initial
  = (Ok tt,
     {| calls := [get_object (JStr (U "b")) (JStr (U "r.json")) None];
        metrics := [("EmptyObject"%string, 1)] |}).
Proof. vm_compute. repeat split; reflexivity. Qed.

(** C10 (amended): the severity score and description are read before
    [resourcesAffected] is looked at. For every fetched report that lacks
    [detail.severity] or whose score is not coercible to an integer,
    ['MissingResources'] is never incremented; and when the report is not
    empty (truthy), [process_record] raises right after the fetch, also when
    [resourcesAffected] is absent or empty. *)
Theorem C10_score_before_resources py s3 cfg record loc st :
  report_location record = Ok loc ->
  report_score py (fetched s3 (calls st) loc) = None ->
  increments "MissingResources"
    (metrics (snd (Tagger.process_record py s3 cfg record st)))
  = increments "MissingResources" (metrics st) /\
  (Py.truthy (fetched s3 (calls st) loc) = true ->
   exists e,
     Tagger.process_record py s3 cfg record st
     = (Raise e, called (fetch_call loc) st)).
Proof.
  intros Hloc Hs. rewrite (process_record_located _ _ _ _ _ _ Hloc).
  destruct (Py.truthy (fetched s3 (calls st) loc)) eqn:Ht.
  - destruct (process_report_no_score py s3 cfg _ (called (fetch_call loc) st) Ht Hs)
      as [e ->].
    split; [reflexivity|]. intros _. exists e. reflexivity.
  - rewrite (process_report_empty _ _ _ _ _ Ht). split; [|discriminate].
    unfold increments. simpl. rewrite filter_app, length_app. simpl. lia.
Qed.

Lemma C10_score_before_resources_witness :
  let report := JDict {[ U "detail" := JDict {[ U "resourcesAffected" := JDict ∅ ]} ]} in
  resources_missing report = true /\
  increments "MissingResources"
    (metrics (snd (Tagger.process_record py0 (serving report) default_config
                     (record_of "b" "r.json") initial)))
  = 0%nat /\
  exists e,
    Tagger.process_record py0 (serving report) default_config
      (record_of "b" "r.json") initial
    = (Raise e,
       {| calls := [get_object (JStr (U "b")) (JStr (U "r.json")) None];
          metrics := [] |}).
Proof.
  intros report. split; [vm_compute; reflexivity|].
  destruct (C10_score_before_resources py0 (serving report) default_config
              (record_of "b" "r.json")
              (JStr (U "b"), JStr (U "r.json"), JNull) initial)
    as [Hcount Hraise].
  - vm_compute; reflexivity.
  - vm_compute; reflexivity.
  - split; [exact Hcount|]. apply Hraise. vm_compute; reflexivity.
Defined.

(** ** The notification configurator *)

Lemma put_bucket_notification_run s3 bucket config st :
  let put := put_bucket_notification_configuration bucket config in
  Configurator.put_bucket_notification s3 bucket config st
  = (match s3 (calls st) put with Ok _ => Ok tt | Raise e => Raise e end,
     called put st).
Proof.
  unfold Configurator.put_bucket_notification, try_except_else, s3_request,
    raise, ret, called. simpl.
  destruct (s3 (calls st) _) as [a|[]]; reflexivity.
Qed.

Lemma request_property_get event name v :
  request_property event name = Some v ->
  exists props,
    Py.get event (U "ResourceProperties") (JDict ∅) = Ok (JDict props) /\
    props !! name = Some v.
Proof.
  destruct event as [| | | | | |ev]; try discriminate. unfold request_property.
  simpl. destruct (default (JDict ∅) (ev !! U "ResourceProperties"))
    as [| | | | | |props]; try discriminate.
  intros H. exists props. split; [reflexivity|exact H].
Qed.

(** Without a bucket name, a handler raises before any call. *)
Lemma no_bucket_name_raises s3 verb event st :
  property_missing event (U "BucketName") = true ->
  exists e, Configurator.registered s3 verb event st = (Raise e, st).
Proof.
  unfold property_missing, request_property. intros H.
  assert (Hc : exists e, Configurator.create s3 event st = (Raise e, st)).
  { unfold Configurator.create, bind, lift, raise.
    destruct event as [| | | | | |ev]; simpl; eauto.
    destruct (default (JDict ∅) (ev !! U "ResourceProperties"))
      as [| | | | | |props]; simpl; eauto.
    destruct (props !! U "BucketName") as [b|]; simpl.
    - rewrite H. simpl. eauto.
    - eauto. }
  assert (Hd : exists e, Configurator.delete s3 event st = (Raise e, st)).
  { unfold Configurator.delete, bind, lift, raise.
    destruct event as [| | | | | |ev]; simpl; eauto.
    destruct (default (JDict ∅) (ev !! U "ResourceProperties"))
      as [| | | | | |props]; simpl; eauto.
    destruct (props !! U "BucketName") as [b|]; simpl.
    - rewrite H. simpl. eauto.
    - eauto. }
  destruct verb; assumption.
Qed.

(** Without a configuration, [create] raises before any call. *)
Lemma no_configuration_raises s3 event st :
  property_missing event (U "NotificationConfiguration") = true ->
  exists e, Configurator.create s3 event st = (Raise e, st).
Proof.
  unfold property_missing, request_property. intros H.
  unfold Configurator.create, bind, lift, raise.
  destruct event as [| | | | | |ev]; simpl; eauto.
  destruct (default (JDict ∅) (ev !! U "ResourceProperties"))
    as [| | | | | |props]; simpl; eauto.
  destruct (negb (Py.truthy (default JNull (props !! U "BucketName")))); eauto.
  destruct (props !! U "NotificationConfiguration") as [c|]; simpl.
  - rewrite H. simpl. eauto.
  - rewrite map_size_empty. simpl. eauto.
Qed.

(** C7: the configurator raises, without any put-notification call,
    whenever [BucketName] is absent from the request properties, for each of
    the three verbs; for create and update it also raises, without any call,
    when [NotificationConfiguration] is absent or empty. *)
Theorem C7_missing_properties_raise s3 verb event st :
  (request_property event (U "BucketName") = None ->
   exists e, Configurator.registered s3 verb event st = (Raise e, st)) /\
  (verb <> Configurator.Delete ->
   property_missing event (U "NotificationConfiguration") = true ->
   exists e, Configurator.registered s3 verb event st = (Raise e, st)).
Proof.
  split.
  - intros H. apply no_bucket_name_raises. unfold property_missing.
    rewrite H. reflexivity.
  - intros Hv H. destruct verb; [| |congruence];
      apply no_configuration_raises, H.
Qed.

Lemma C7_missing_properties_raise_witness :
  (exists e,
     Configurator.registered (serving JNull) Configurator.Delete
       (request_of {[ U "NotificationConfiguration" := notifications ]}) initial
     = (Raise e, initial)) /\
  (exists e,
     Configurator.registered (serving JNull) Configurator.Update
       (request_of {[ U "BucketName" := JStr (U "results");
                      U "NotificationConfiguration" := JDict ∅ ]}) initial
     = (Raise e, initial)).
Proof.
  split.
  - apply (proj1 (C7_missing_properties_raise (serving JNull)
                    Configurator.Delete
                    (request_of {[ U "NotificationConfiguration" := notifications ]})
                    initial)).
    vm_compute; reflexivity.
  - apply (proj2 (C7_missing_properties_raise (serving JNull)
                    Configurator.Update
                    (request_of {[ U "BucketName" := JStr (U "results");
                                   U "NotificationConfiguration" := JDict ∅ ]})
                    initial)).
    + discriminate.
    + vm_compute; reflexivity.
Defined.

(** C8, as stated, fails: when the put-notification call raises, [create]
    raises too and reports no identifier. *)
Lemma C8_counterexample :
  let event := request_of {[ U "BucketName" := JStr (U "results");
                             U "NotificationConfiguration" := notifications ]} in
  request_property event (U "BucketName") = Some (JStr (U "results")) /\
  property_missing event (U "NotificationConfiguration") = false /\
  Configurator.registered denying_notifications Configurator.Create event initial
  = (Raise ClientError,
     {| calls := [put_bucket_notification_configuration (JStr (U "results"))
                    notifications];
        metrics := [] |}).
Proof. vm_compute. repeat split; reflexivity. Qed.

(** C8 (amended): given a present, non-empty [BucketName], a create or
    update request with a non-empty [NotificationConfiguration] issues
    exactly one put-notification call, with that exact document, and, when
    the call succeeds, reports the fixed identifier ['ResultsNotifications'];
    a delete request issues exactly one put-notification call with the empty
    configuration, whatever configuration the request carries. In both cases
    an exception of the call propagates. *)
Theorem C8_one_put_notification s3 verb event bucket st :
  request_property event (U "BucketName") = Some bucket ->
  Py.truthy bucket = true ->
  match verb with
  | Configurator.Delete =>
      let put := put_bucket_notification_configuration bucket (JDict ∅) in
      Configurator.registered s3 verb event st
      = (match s3 (calls st) put with Ok _ => Ok JNull | Raise e => Raise e end,
         {| calls := calls st ++ [put]; metrics := metrics st |})
  | _ =>
      forall config,
        request_property event (U "NotificationConfiguration") = Some config ->
        Py.truthy config = true ->
        let put := put_bucket_notification_configuration bucket config in
        Configurator.registered s3 verb event st
        = (match s3 (calls st) put with
           | Ok _ => Ok (JStr (U "ResultsNotifications"))
           | Raise e => Raise e
           end,
           {| calls := calls st ++ [put]; metrics := metrics st |})
  end.
Proof.
  intros Hb Ht.
  destruct (request_property_get _ _ _ Hb) as (props & Hp & Hbn).
  assert (Hcreate : forall config,
    request_property event (U "NotificationConfiguration") = Some config ->
    Py.truthy config = true ->
    Configurator.create s3 event st
    = (match s3 (calls st) (put_bucket_notification_configuration bucket config) with
       | Ok _ => Ok (JStr (U "ResultsNotifications"))
       | Raise e => Raise e
       end,
       {| calls := calls st ++ [put_bucket_notification_configuration bucket config];
          metrics := metrics st |})).
  { intros config Hc Htc.
    destruct (request_property_get _ _ _ Hc) as (props' & Hp' & Hcn).
    assert (props' = props) as -> by congruence.
    unfold Configurator.create, bind, lift. rewrite Hp. simpl.
    rewrite Hbn. simpl. rewrite Ht. simpl. rewrite Hcn. simpl. rewrite Htc. simpl.
    rewrite put_bucket_notification_run. simpl.
    destruct (s3 (calls st) _); reflexivity. }
  destruct verb; [exact Hcreate|exact Hcreate|].
  simpl. unfold Configurator.delete, bind, lift. rewrite Hp. simpl.
  rewrite Hbn. simpl. rewrite Ht. simpl.
  rewrite put_bucket_notification_run. simpl.
  destruct (s3 (calls st) _); reflexivity.
Qed.

Lemma C8_one_put_notification_witness :
  let event := request_of {[ U "BucketName" := JStr (U "results");
                             U "NotificationConfiguration" := notifications ]} in
  Configurator.registered (serving JNull) Configurator.Update event initial
  = (Ok (JStr (U "ResultsNotifications")),
     {| calls := [put_bucket_notification_configuration (JStr (U "results"))
                    notifications];
        metrics := [] |}) /\
  Configurator.registered (serving JNull) Configurator.Delete event initial
  = (Ok JNull,
     {| calls := [put_bucket_notification_configuration (JStr (U "results"))
                    (JDict ∅)];
        metrics := [] |}).
Proof.
  intros event. split.
  - refine (C8_one_put_notification (serving JNull) Configurator.Update event
              (JStr (U "results")) initial _ _ notifications _ _).
    + vm_compute; reflexivity.
    + reflexivity.
    + vm_compute; reflexivity.
    + vm_compute; reflexivity.
  - refine (C8_one_put_notification (serving JNull) Configurator.Delete event
              (JStr (U "results")) initial _ _).
    + vm_compute; reflexivity.
    + reflexivity.
Defined.

(** ** Decoding the key *)

Module UrllibFacts.
Import Urllib.
#[local] Open Scope N_scope.

(** [split] gives at least one piece. *)
Lemma split_on_nonempty sep l : split_on sep l <> [].
Proof.
  destruct l as [|c l]; simpl; [discriminate|].
  destruct (c =? sep); [discriminate|].
  destruct (split_on sep l); discriminate.
Qed.

(** The pieces of a concatenation. *)
Lemma split_on_app sep x y hy ty :
  split_on sep y = hy :: ty ->
  split_on sep (x ++ y) = graft (split_on sep x) hy ty.
Proof.
  intros Hy. induction x as [|c x IH]; simpl.
  - exact Hy.
  - rewrite IH. pose proof (split_on_nonempty sep x) as Hne.
    destruct (split_on sep x) as [|h [|h' t]]; [congruence| |].
    + destruct (c =? sep); reflexivity.
    + destruct (c =? sep); reflexivity.
Qed.

(** One piece only: the piece is the whole. *)
Lemma split_on_single sep l h : split_on sep l = [h] -> h = l.
Proof.
  revert h. induction l as [|c l IH]; simpl; intros h.
  - intros [= <-]. reflexivity.
  - pose proof (split_on_nonempty sep l) as Hne.
    destruct (c =? sep).
    + intros [= <- H]. congruence.
    + destruct (split_on sep l) as [|h' t]; [congruence|].
      intros [= <- ->]. f_equal. apply IH. reflexivity.
Qed.

(** [unquote_to_bytes] without its shortcuts. *)
Lemma unquote_to_bytes_pieces chunk h t :
  split_on 37 chunk = h :: t ->
  unquote_to_bytes chunk = h ++ unquote_items t.
Proof.
  intros H. unfold unquote_to_bytes.
  destruct chunk as [|c chunk'] eqn:E.
  - simpl in H. injection H as <- <-. reflexivity.
  - rewrite H. destruct t as [|i t]; [|reflexivity].
    rewrite (split_on_single _ _ _ H). unfold unquote_items. simpl.
    rewrite app_nil_r. reflexivity.
Qed.

Lemma unquote_items_graft t hy ty :
  t <> [] ->
  (forall l, unquote_item (l ++ hy) = unquote_item l ++ hy) ->
  unquote_items (graft t hy ty) = unquote_items t ++ hy ++ unquote_items ty.
Proof.
  intros Hne Hitem. induction t as [|h t IH]; [congruence|].
  destruct t as [|h' t].
  - unfold unquote_items. simpl. rewrite Hitem, app_nil_r, <- app_assoc. reflexivity.
  - change (graft (h :: h' :: t) hy ty) with (h :: graft (h' :: t) hy ty).
    unfold unquote_items in *. simpl map. simpl concat.
    simpl map in IH. simpl concat in IH.
    rewrite IH by discriminate. rewrite <- !app_assoc. reflexivity.
Qed.

(** [unquote_to_bytes] goes through a concatenation when what follows
    cannot complete an escape that is still open. *)
Lemma unquote_to_bytes_app x y hy ty :
  split_on 37 y = hy :: ty ->
  (forall l, unquote_item (l ++ hy) = unquote_item l ++ hy) ->
  unquote_to_bytes (x ++ y) = unquote_to_bytes x ++ unquote_to_bytes y.
Proof.
  intros Hy Hitem.
  rewrite (unquote_to_bytes_pieces y _ _ Hy).
  pose proof (split_on_app 37 x y hy ty Hy) as Hxy.
  pose proof (split_on_nonempty 37 x) as Hne.
  destruct (split_on 37 x) as [|h t] eqn:Hx; [congruence|].
  rewrite (unquote_to_bytes_pieces x _ _ Hx).
  destruct t as [|h' t].
  - simpl in Hxy. rewrite (unquote_to_bytes_pieces _ _ _ Hxy).
    unfold unquote_items at 2. simpl. rewrite app_nil_r, <- app_assoc. reflexivity.
  - change (graft (h :: h' :: t) hy ty) with (h :: graft (h' :: t) hy ty) in Hxy.
    rewrite (unquote_to_bytes_pieces _ _ _ Hxy).
    rewrite unquote_items_graft by (discriminate || assumption).
    rewrite <- !app_assoc. reflexivity.
Qed.

(** A character that is not a hexadecimal digit completes no escape. *)
Lemma unquote_item_app_nonhex l c r :
  hex_value c = None ->
  unquote_item (l ++ c :: r) = unquote_item l ++ c :: r.
Proof.
  intros Hc. unfold unquote_item, hextobyte.
  destruct l as [|a [|b l]]; simpl.
  - destruct r as [|d r]; [reflexivity|]. rewrite Hc. reflexivity.
  - rewrite Hc. destruct (hex_value a); reflexivity.
  - destruct (hex_value a); [|reflexivity]. destruct (hex_value b); reflexivity.
Qed.

Lemma not_continuation_ascii c : c < 128 -> is_continuation c = false.
Proof.
  intros H. unfold is_continuation, in_range.
  apply andb_false_iff. left. apply N.leb_gt. exact H.
Qed.

Lemma not_second_ascii b c : c < 128 -> second_ok b c = false.
Proof.
  intros H. unfold second_ok, is_continuation, in_range.
  repeat match goal with |- context [if ?x then _ else _] => destruct x end;
    apply andb_false_iff; left; apply N.leb_gt; lia.
Qed.

Lemma utf8_decode_replace_ascii c q :
  c < 128 -> utf8_decode_replace (c :: q) = c :: utf8_decode_replace q.
Proof. intros H. simpl. apply N.ltb_lt in H. rewrite H. reflexivity. Qed.

(** An ASCII byte ends whatever sequence is open before it: the decoder
    goes through the concatenation. *)
Lemma utf8_decode_replace_app_ascii p c q :
  c < 128 ->
  utf8_decode_replace (p ++ c :: q)
  = utf8_decode_replace p ++ c :: utf8_decode_replace q.
Proof.
  intros Hc.
  assert (H : forall n p, (length p <= n)%nat ->
            utf8_decode_replace (p ++ c :: q)
            = utf8_decode_replace p ++ c :: utf8_decode_replace q).
  { clear p. induction n as [|n IH]; intros p Hn.
    - destruct p; [|simpl in Hn; lia]. apply utf8_decode_replace_ascii, Hc.
    - destruct p as [|b0 p]; [apply utf8_decode_replace_ascii, Hc|].
      pose proof (not_continuation_ascii c Hc) as Hcont.
      pose proof (fun b => not_second_ascii b c Hc) as Hsec.
      pose proof (utf8_decode_replace_ascii c q Hc) as Hcq.
      simpl in Hn.
      change ((b0 :: p) ++ c :: q) with (b0 :: (p ++ c :: q)).
      cbn [utf8_decode_replace].
      destruct (b0 <? 128).
      { simpl. f_equal. apply IH. lia. }
      destruct (in_range 194 223 b0).
      { destruct p as [|b1 p].
        - simpl app. cbv iota. rewrite Hcont, Hcq. reflexivity.
        - simpl app. cbv iota. simpl in Hn. destruct (is_continuation b1).
          + simpl. f_equal. apply IH. lia.
          + simpl. f_equal. apply (IH (b1 :: p)). simpl. lia. }
      destruct (in_range 224 239 b0).
      { destruct p as [|b1 p].
        - simpl app. cbv iota. rewrite Hsec, Hcq. reflexivity.
        - simpl app. cbv iota. simpl in Hn. destruct (second_ok b0 b1).
          + destruct p as [|b2 p].
            * simpl app. cbv iota. rewrite Hcont, Hcq. reflexivity.
            * simpl app. cbv iota. simpl in Hn. destruct (is_continuation b2).
              -- simpl. f_equal. apply IH. lia.
              -- simpl. f_equal. apply (IH (b2 :: p)). simpl. lia.
          + simpl. f_equal. apply (IH (b1 :: p)). simpl. lia. }
      destruct (in_range 240 244 b0).
      { destruct p as [|b1 p].
        - simpl app. cbv iota. rewrite Hsec, Hcq. reflexivity.
        - simpl app. cbv iota. simpl in Hn. destruct (second_ok b0 b1).
          + destruct p as [|b2 p].
            * simpl app. cbv iota. rewrite Hcont, Hcq. reflexivity.
            * simpl app. cbv iota. simpl in Hn. destruct (is_continuation b2).
              -- destruct p as [|b3 p].
                 ++ simpl app. cbv iota. rewrite Hcont, Hcq. reflexivity.
                 ++ simpl app. cbv iota. simpl in Hn.
                    destruct (is_continuation b3).
                    ** simpl. f_equal. apply IH. lia.
                    ** simpl. f_equal. apply (IH (b3 :: p)). simpl. lia.
              -- simpl. f_equal. apply (IH (b2 :: p)). simpl. lia.
          + simpl. f_equal. apply (IH (b1 :: p)). simpl. lia. }
      simpl. f_equal. apply IH. lia. }
  apply (H (length p)). lia.
Qed.

Lemma unquote_to_bytes_plus x z :
  unquote_to_bytes (x ++ 37 :: 50 :: 66 :: z)
  = unquote_to_bytes x ++ 43 :: unquote_to_bytes z.
Proof.
  pose proof (split_on_nonempty 37 z) as Hne.
  destruct (split_on 37 z) as [|hz tz] eqn:Hz; [congruence|].
  assert (Hy : split_on 37 (37 :: 50 :: 66 :: z) = [] :: (50 :: 66 :: hz) :: tz).
  { simpl. rewrite Hz. reflexivity. }
  rewrite (unquote_to_bytes_app x _ _ _ Hy).
  - rewrite (unquote_to_bytes_pieces _ _ _ Hy), (unquote_to_bytes_pieces _ _ _ Hz).
    reflexivity.
  - intros l. rewrite !app_nil_r. reflexivity.
Qed.

Lemma unquote_to_bytes_space x z :
  unquote_to_bytes (x ++ 32 :: z)
  = unquote_to_bytes x ++ 32 :: unquote_to_bytes z.
Proof.
  pose proof (split_on_nonempty 37 z) as Hne.
  destruct (split_on 37 z) as [|hz tz] eqn:Hz; [congruence|].
  assert (Hy : split_on 37 (32 :: z) = (32 :: hz) :: tz).
  { simpl. rewrite Hz. reflexivity. }
  rewrite (unquote_to_bytes_app x _ _ _ Hy).
  - rewrite (unquote_to_bytes_pieces _ _ _ Hy), (unquote_to_bytes_pieces _ _ _ Hz).
    reflexivity.
  - intros l. apply unquote_item_app_nonhex. reflexivity.
Qed.

Section Boundary.
(** A piece [m] of ASCII text that always unquotes to the one ASCII
    character [c], whatever stands before and after it. *)
Variables (m : list N) (c : N).
Hypothesis m_ascii : Forall (fun x => x < 128) m.
Hypothesis c_ascii : c < 128.
Hypothesis bytes_app : forall x z,
  unquote_to_bytes (x ++ m ++ z) = unquote_to_bytes x ++ c :: unquote_to_bytes z.

Lemma decode_chunk_boundary x z :
  decode_chunk (x ++ m ++ z) = decode_chunk x ++ c :: decode_chunk z.
Proof.
  unfold decode_chunk. rewrite bytes_app.
  apply utf8_decode_replace_app_ascii, c_ascii.
Qed.

Lemma unquote_parts_run z : forall run r,
  unquote_parts (run ++ m ++ r) z = decode_chunk run ++ c :: unquote_parts r z.
Proof.
  induction z as [|d z IH]; intros run r; simpl.
  - apply decode_chunk_boundary.
  - destruct (d <? 128).
    + rewrite <- !app_assoc. apply IH.
    + rewrite decode_chunk_boundary, <- app_assoc. reflexivity.
Qed.

Lemma unquote_parts_ascii p : forall run z,
  Forall (fun x => x < 128) p ->
  unquote_parts run (p ++ z) = unquote_parts (run ++ p) z.
Proof.
  induction p as [|d p IH]; intros run z Hp; simpl.
  - rewrite app_nil_r. reflexivity.
  - inversion Hp as [|? ? Hd Hp']; subst. apply N.ltb_lt in Hd. rewrite Hd.
    rewrite IH by assumption. rewrite <- app_assoc. reflexivity.
Qed.

Lemma unquote_parts_boundary a : forall run z,
  unquote_parts run (a ++ m ++ z)
  = unquote_parts run a ++ c :: unquote_parts [] z.
Proof.
  induction a as [|d a IH]; intros run z.
  - simpl app. rewrite unquote_parts_ascii by assumption.
    rewrite <- (app_nil_r m) at 1. apply unquote_parts_run.
  - simpl. destruct (d <? 128).
    + apply IH.
    + rewrite IH, <- app_assoc. reflexivity.
Qed.
End Boundary.

Lemma split_on_plain l : existsb (N.eqb 37) l = false -> split_on 37 l = [l].
Proof.
  induction l as [|d l IH]; [reflexivity|]. cbn [existsb split_on].
  intros H. apply orb_false_iff in H as [Hd Hl].
  rewrite N.eqb_sym in Hd. rewrite Hd, (IH Hl). reflexivity.
Qed.

Lemma utf8_decode_replace_plain l :
  Forall (fun x => x < 128) l -> utf8_decode_replace l = l.
Proof.
  induction 1 as [|d l Hd _ IH]; [reflexivity|].
  rewrite utf8_decode_replace_ascii by assumption. rewrite IH. reflexivity.
Qed.

Lemma decode_chunk_plain run :
  Forall (fun x => x < 128) run -> existsb (N.eqb 37) run = false ->
  decode_chunk run = run.
Proof.
  intros Ha Hp. unfold decode_chunk.
  rewrite (unquote_to_bytes_pieces run run [] (split_on_plain _ Hp)).
  unfold unquote_items. simpl. rewrite app_nil_r.
  apply utf8_decode_replace_plain, Ha.
Qed.

Lemma unquote_parts_plain s : forall run,
  Forall (fun x => x < 128) run -> existsb (N.eqb 37) run = false ->
  existsb (N.eqb 37) s = false ->
  unquote_parts run s = run ++ s.
Proof.
  induction s as [|d s IH]; intros run Ha Hp Hs; simpl.
  - rewrite app_nil_r. apply decode_chunk_plain; assumption.
  - cbn [existsb] in Hs. apply orb_false_iff in Hs as [Hd Hs].
    destruct (d <? 128) eqn:Hlt.
    + rewrite IH; [rewrite <- app_assoc; reflexivity| | |assumption].
      * apply Forall_app. split; [assumption|]. constructor; [|constructor].
        apply N.ltb_lt, Hlt.
      * rewrite existsb_app, Hp. cbn [existsb]. rewrite Hd. reflexivity.
    + rewrite decode_chunk_plain by assumption.
      rewrite (IH []); [reflexivity|constructor|reflexivity|assumption].
Qed.

(** The shortcut of [unquote] for a string without ['%'] changes nothing. *)
Lemma unquote_parts_eq s : unquote s = unquote_parts [] s.
Proof.
  unfold unquote. destruct (existsb (N.eqb 37) s) eqn:H; [reflexivity|].
  symmetry. apply (unquote_parts_plain s []); [constructor|reflexivity|exact H].
Qed.

Lemma replace_plus_app a z :
  replace_plus (a ++ z) = replace_plus a ++ replace_plus z.
Proof. apply map_app. Qed.

(** ['%2B'] becomes ['+'], wherever it stands. *)
Lemma unquote_plus_percent_2B a z :
  unquote_plus (a ++ U "%2B" ++ z) = unquote_plus a ++ U "+" ++ unquote_plus z.
Proof.
  unfold unquote_plus. rewrite !replace_plus_app.
  change (replace_plus (U "%2B")) with [37; 50; 66].
  rewrite !unquote_parts_eq.
  apply (unquote_parts_boundary [37; 50; 66] 43).
  - repeat constructor.
  - reflexivity.
  - intros x y. apply unquote_to_bytes_plus.
Qed.

(** ['+'] becomes a space, wherever it stands. *)
Lemma unquote_plus_plus a z :
  unquote_plus (a ++ U "+" ++ z) = unquote_plus a ++ U " " ++ unquote_plus z.
Proof.
  unfold unquote_plus. rewrite !replace_plus_app.
  change (replace_plus (U "+")) with [32].
  rewrite !unquote_parts_eq.
  apply (unquote_parts_boundary [32] 32).
  - repeat constructor.
  - reflexivity.
  - intros x y. apply unquote_to_bytes_space.
Qed.

End UrllibFacts.

(** ** Records and their envelope *)

(** The location read from a record whose present fields have the types of
    the envelope: missing identifiers are [None], the key is decoded. *)
Lemma typed_envelope_location record :
  typed_envelope record = true ->
  report_location record
  = Ok (default JNull (envelope_field record (U "bucket") (U "name")),
        match envelope_field record (U "object") (U "key") with
        | Some (JStr k) => JStr (Urllib.unquote_plus k)
        | _ => JNull
        end,
        default JNull (envelope_field record (U "object") (U "versionId"))).
Proof.
  destruct record as [| | | | | |r]; try discriminate.
  unfold typed_envelope, report_location, record_field, envelope_field.
  cbn [Py.get].
  destruct (r !! U "s3") as [[| | | | | |s]|] eqn:Hs3; try discriminate;
    cbn [default from_option id Py.get].
  - destruct (s !! U "bucket") as [[| | | | | |b]|] eqn:Hb; try discriminate;
      destruct (s !! U "object") as [[| | | | | |o]|] eqn:Ho; try discriminate;
      cbn [default from_option id Py.get andb]; rewrite ?lookup_empty; cbn [default from_option id].
    + destruct (o !! U "key") as [[| | | |k| |]|] eqn:Hk; try discriminate;
        intros _; [destruct k|]; reflexivity.
    + intros _. reflexivity.
    + destruct (o !! U "key") as [[| | | |k| |]|] eqn:Hk; try discriminate;
        intros _; [destruct k|]; reflexivity.
    + intros _. reflexivity.
  - intros _. rewrite !lookup_empty. cbn [default from_option id Py.get].
    rewrite !lookup_empty. reflexivity.
Qed.

(** The calls of [process_record]: the fetch, then nothing, or the tag-put
    of the affected resource, or that tag-put and the lifecycle-put. *)
Lemma process_record_calls py s3 cfg record loc st :
  report_location record = Ok loc ->
  exists rest,
    calls (snd (Tagger.process_record py s3 cfg record st))
    = calls st ++ fetch_call loc :: rest /\
    forall c, In c rest ->
      exists desc res,
        severity_field (fetched s3 (calls st) loc) (U "description") = Some desc /\
        affected_resource (fetched s3 (calls st) loc) = Some res /\
        (c = tag_put py cfg desc res \/ c = lifecycle_put cfg res).
Proof.
  intros Hloc.
  assert (Hnone : forall r : outcome unit * state,
            calls (snd r) = calls st ++ [fetch_call loc] ->
            exists rest,
              calls (snd r) = calls st ++ fetch_call loc :: rest /\
              forall c, In c rest ->
                exists desc res,
                  severity_field (fetched s3 (calls st) loc) (U "description")
                  = Some desc /\
                  affected_resource (fetched s3 (calls st) loc) = Some res /\
                  (c = tag_put py cfg desc res \/ c = lifecycle_put cfg res)).
  { intros r Hr. exists []. split; [exact Hr|]. intros c []. }
  set (data := fetched s3 (calls st) loc) in *.
  destruct (Py.truthy data) eqn:Ht.
  2:{ apply Hnone. rewrite (process_record_located _ _ _ _ _ _ Hloc).
      fold data. rewrite (process_report_empty _ _ _ _ _ Ht). reflexivity. }
  destruct (report_score py data) as [s|] eqn:Hs.
  2:{ apply Hnone. rewrite (process_record_located _ _ _ _ _ _ Hloc). fold data.
      destruct (process_report_no_score py s3 cfg data
                  (called (fetch_call loc) st) Ht Hs) as [e ->]. reflexivity. }
  destruct (severity_field data (U "description")) as [desc|] eqn:Hd.
  2:{ apply Hnone. rewrite (process_record_located _ _ _ _ _ _ Hloc). fold data.
      rewrite (process_report_no_description _ _ _ _ _ _ Hs Hd). reflexivity. }
  destruct (affected_resource data) as [res|] eqn:Hres.
  2:{ apply Hnone. rewrite (process_record_located _ _ _ _ _ _ Hloc). fold data.
      destruct (resources_missing data) eqn:Hm.
      - rewrite (process_report_scored _ _ _ _ _ _ _ Hs Hd), Hm. reflexivity.
      - destruct (process_report_malformed py s3 cfg data s desc
                    (called (fetch_call loc) st) Hs Hd Hm Hres) as [e ->].
        reflexivity. }
  destruct (Z.ltb_spec s (Tagger.SCORE_THRESHOLD cfg)) as [Hlt|Hle].
  - apply Hnone. rewrite (process_record_located _ _ _ _ _ _ Hloc). fold data.
    rewrite (process_report_scored _ _ _ _ _ _ _ Hs Hd).
    rewrite (affected_resource_not_missing _ _ Hres), Hres.
    destruct res as [[b k] v]. apply Z.ltb_lt in Hlt. rewrite Hlt. reflexivity.
  - rewrite (process_record_at_threshold py s3 cfg record loc s desc res st
               Hloc Hs Hle Hd Hres).
    destruct (escapes _).
    + exists [tag_put py cfg desc res]. split.
      * simpl. rewrite <- app_assoc. reflexivity.
      * intros c [<-|[]]. exists desc, res. auto.
    + exists [tag_put py cfg desc res; lifecycle_put cfg res]. split.
      * simpl. rewrite <- app_assoc. reflexivity.
      * intros c [<-|[<-|[]]]; exists desc, res; auto.
Qed.




(** C6: for every record, the object key read from the event is decoded
    with [unquote_plus] before the report is fetched, so that ['%2B'] becomes
    ['+'] and ['+'] becomes a space wherever they stand in the key; the
    decoded key occurs in the fetch only: any later call is the tag-put or
    the lifecycle-put of the resource that the report names. *)
Theorem C6_key_decoded_for_fetch py s3 cfg record k st :
  typed_envelope record = true ->
  envelope_field record (U "object") (U "key") = Some (JStr k) ->
  let loc := (default JNull (envelope_field record (U "bucket") (U "name")),
              JStr (Urllib.unquote_plus k),
              default JNull (envelope_field record (U "object") (U "versionId"))) in
  (exists rest,
     calls (snd (Tagger.process_record py s3 cfg record st))
     = calls st ++ fetch_call loc :: rest /\
     forall c, In c rest ->
       exists desc res,
         severity_field (fetched s3 (calls st) loc) (U "description") = Some desc /\
         affected_resource (fetched s3 (calls st) loc) = Some res /\
         (c = tag_put py cfg desc res \/ c = lifecycle_put cfg res)) /\
  (forall a z,
     Urllib.unquote_plus (a ++ U "%2B" ++ z)
     = Urllib.unquote_plus a ++ U "+" ++ Urllib.unquote_plus z) /\
  (forall a z,
     Urllib.unquote_plus (a ++ U "+" ++ z)
     = Urllib.unquote_plus a ++ U " " ++ Urllib.unquote_plus z).
Proof.
  intros Hty Hk loc. split; [|split].
  - apply process_record_calls.
    rewrite (typed_envelope_location record Hty), Hk. reflexivity.
  - apply UrllibFacts.unquote_plus_percent_2B.
  - apply UrllibFacts.unquote_plus_plus.
Qed.

Lemma C6_key_decoded_for_fetch_witness :
  exists rest,
    calls (snd (Tagger.process_record py0
                  (serving (report_of 5 "High" "data" "secret.csv"))
                  default_config (record_of "b" "f%2Bx+y.json") initial))
    = get_object (JStr (U "b")) (JStr (U "f+x y.json")) None :: rest.
Proof.
  destruct (C6_key_decoded_for_fetch py0
              (serving (report_of 5 "High" "data" "secret.csv"))
              default_config (record_of "b" "f%2Bx+y.json")
              (U "f%2Bx+y.json") initial)
    as [[rest [Hcalls _]] _].
  - vm_compute; reflexivity.
  - vm_compute; reflexivity.
  - exists rest. exact Hcalls.
Defined.

(** ** The scenarios of the specification *)

Example load_config_defaults :
  Tagger.load_config py0 (fun _ => None) = Ok default_config.
Proof. reflexivity. Qed.

Example spec_scenario_tagged :
  Tagger.process_record py0 (serving (report_of 5 "High" "data" "secret.csv"))
    default_config (record_of "b" "f%2Bx.json") initial
  = (Ok tt,
     {| calls :=
          [ get_object (JStr (U "b")) (JStr (U "f+x.json")) None;
            put_object_tagging (JStr (U "data")) (JStr (U "secret.csv"))
              [(U "Severity", U "High")] None;
            put_bucket_lifecycle_configuration (JStr (U "data"))
              [ {| Filter_Prefix := JStr (U "secret.csv");
                   Status := "Enabled";
                   NoncurrentVersionTransitions := [(365, "GLACIER"%string)];
                   NoncurrentVersionExpiration := 1825 |} ] ];
        metrics := [("TaggingSuccess"%string, 1)] |}).
Proof. vm_compute. reflexivity. Qed.

Example spec_scenario_skipped :
  Tagger.process_record py0 (serving (report_of 2 "Low" "data" "secret.csv"))
    default_config (record_of "b" "f%2Bx.json") initial
  = (Ok tt,
     {| calls := [ get_object (JStr (U "b")) (JStr (U "f+x.json")) None ];
        metrics := [("TaggingSkipped"%string, 1)] |}).
Proof. vm_compute. reflexivity. Qed.

Example unquote_plus_spec_key :
  Urllib.unquote_plus (U "f%2Bx.json") = U "f+x.json".
Proof. reflexivity. Qed.

Example unquote_plus_ill_formed :
  Urllib.unquote_plus (U "a+%E2%82%AC%zz%E2%82")
  = U "a " ++ [8364; 37; 122; 122; 65533]%N.
Proof. reflexivity. Qed.

(** * Further properties of the tagger *)

(** ** The paths of [process_record] that end without remediation *)

(** X1: a report with a score and a description whose [resourcesAffected]
    is absent or empty ends the record normally, whatever the score (also at
    or above the threshold): ['MissingResources'] is incremented once and the
    fetch is the only call. *)
Theorem X1_missing_resources py s3 cfg record loc s desc st :
  report_location record = Ok loc ->
  report_score py (fetched s3 (calls st) loc) = Some s ->
  severity_field (fetched s3 (calls st) loc) (U "description") = Some desc ->
  resources_missing (fetched s3 (calls st) loc) = true ->
  Tagger.process_record py s3 cfg record st
  = (Ok tt,
     {| calls := calls st ++ [fetch_call loc];
        metrics := metrics st ++ [("MissingResources"%string, 1)] |}).
Proof.
  intros Hloc Hs Hd Hm. rewrite (process_record_located _ _ _ _ _ _ Hloc).
  rewrite (process_report_scored _ _ _ _ _ _ _ Hs Hd), Hm. reflexivity.
Qed.

Lemma X1_missing_resources_witness :
  Tagger.process_record py0 (serving (unscoped_report_of 9 "High"))
    default_config (record_of "b" "r.json") initial
  = (Ok tt,
     {| calls := [get_object (JStr (U "b")) (JStr (U "r.json")) None];
        metrics := [("MissingResources"%string, 1)] |}).
Proof.
  refine (X1_missing_resources py0 (serving (unscoped_report_of 9 "High"))
            default_config (record_of "b" "r.json")
            (JStr (U "b"), JStr (U "r.json"), JNull) 9 (JStr (U "High"))
            initial _ _ _ _).
  - vm_compute; reflexivity.
  - vm_compute; reflexivity.
  - vm_compute; reflexivity.
  - vm_compute; reflexivity.
Defined.

(** X2: a body that is fetched and parsed but falsy ([{}], [[]], [null],
    [0], [0.0], [false] or the empty string) is taken as no data: the record
    ends normally with ['EmptyObject'] incremented once, and nothing of the
    value is looked at. *)
Theorem X2_empty_report py s3 cfg record loc v st :
  report_location record = Ok loc ->
  s3 (calls st) (fetch_call loc) = Ok (Ok v) ->
  Py.truthy v = false ->
  Tagger.process_record py s3 cfg record st
  = (Ok tt,
     {| calls := calls st ++ [fetch_call loc];
        metrics := metrics st ++ [("EmptyObject"%string, 1)] |}).
Proof.
  intros Hloc Hv Ht. rewrite (process_record_located _ _ _ _ _ _ Hloc).
  apply process_report_empty. unfold fetched. rewrite Hv. exact Ht.
Qed.

Lemma X2_empty_report_witness :
  Tagger.process_record py0 (serving (JList [])) default_config
    (record_of "b" "r.json") initial
  = (Ok tt,
     {| calls := [get_object (JStr (U "b")) (JStr (U "r.json")) None];
        metrics := [("EmptyObject"%string, 1)] |}).
Proof.
  refine (X2_empty_report py0 (serving (JList [])) default_config
            (record_of "b" "r.json")
            (JStr (U "b"), JStr (U "r.json"), JNull) (JList []) initial _ _ _).
  - vm_compute; reflexivity.
  - reflexivity.
  - reflexivity.
Defined.

(** ** The exceptions of [process_record] *)

Lemma bind_lift {A B} (r : outcome A) (k : A -> M B) st :
  bind (lift r) k st
  = match r with Ok a => k a st | Raise e => (Raise e, st) end.
Proof. unfold bind, lift. destruct r; reflexivity. Qed.

Lemma get_raises v k d e : Py.get v k d = Raise e -> e = AttributeError.
Proof. destruct v; simpl; congruence. Qed.

Lemma getitem_raises v k e :
  Py.getitem v k = Raise e -> e = KeyError \/ e = TypeError.
Proof.
  destruct v as [| | | | | |d]; simpl; try (intros [= <-]; auto).
  destruct (d !! k); [discriminate|]. intros [= <-]. auto.
Qed.

Lemma int_raises py v e : Py.int py v = Raise e -> builtin_exn e = true.
Proof.
  destruct v as [|b|z|f|s| |]; simpl; try (intros [= <-]; reflexivity);
    try discriminate.
  - destruct f; simpl; try discriminate; intros [= <-]; reflexivity.
  - destruct (int_of_str py s); [discriminate|]. intros [= <-]. reflexivity.
Qed.

Lemma guarded_not_ClientError answer e :
  guarded answer = Raise e -> is_ClientError e = false.
Proof.
  unfold guarded, escapes. destruct answer as [a|e']; [discriminate|].
  destruct (is_ClientError e') eqn:H; [discriminate|]. intros [= <-]. exact H.
Qed.

Lemma escapes_not_ClientError answer e :
  escapes answer = Some e -> is_ClientError e = false.
Proof.
  unfold escapes. destruct answer as [a|e']; [discriminate|].
  destruct (is_ClientError e') eqn:H; [discriminate|]. intros [= <-]. exact H.
Qed.

(** An exception of [process_report] comes from one of its own expressions,
    with nothing done since the fetch, or from a put of the client. *)
Lemma process_report_raises py s3 cfg data st e st' :
  process_report py s3 cfg data st = (Raise e, st') ->
  (builtin_exn e = true /\ st' = st) \/
  (is_ClientError e = false /\
   exists c, (is_tag_put c || is_lifecycle_put c = true) /\
             exists h, s3 h c = Raise e /\ In c (calls st')).
Proof.
  unfold process_report. destruct (Py.truthy data); simpl; [|discriminate].
  rewrite bind_lift.
  destruct (Py.get data (U "detail") (JDict ∅)) as [detail|e0] eqn:E0;
    [|intros [= <- <-]; left; rewrite (get_raises _ _ _ _ E0); auto].
  rewrite bind_lift.
  destruct (Py.getitem detail (U "severity")) as [severity|e1] eqn:E1;
    [|intros [= <- <-]; left;
      destruct (getitem_raises _ _ _ E1) as [-> | ->]; auto].
  rewrite bind_lift.
  destruct (Py.getitem severity (U "score")) as [score|e2] eqn:E2;
    [|intros [= <- <-]; left;
      destruct (getitem_raises _ _ _ E2) as [-> | ->]; auto].
  rewrite bind_lift.
  destruct (Py.int py score) as [z|e3] eqn:E3;
    [|intros [= <- <-]; left; rewrite (int_raises _ _ _ E3); auto].
  rewrite bind_lift.
  destruct (Py.getitem severity (U "description")) as [desc|e4] eqn:E4;
    [|intros [= <- <-]; left;
      destruct (getitem_raises _ _ _ E4) as [-> | ->]; auto].
  rewrite bind_lift.
  destruct (Py.get detail (U "resourcesAffected") (JDict ∅)) as [res|e5] eqn:E5;
    [|intros [= <- <-]; left; rewrite (get_raises _ _ _ _ E5); auto].
  destruct (Py.truthy res); simpl; [|discriminate].
  rewrite bind_lift.
  destruct (Py.getitem res (U "s3Bucket")) as [s3Bucket|e6] eqn:E6;
    [|intros [= <- <-]; left;
      destruct (getitem_raises _ _ _ E6) as [-> | ->]; auto].
  rewrite bind_lift.
  destruct (Py.getitem s3Bucket (U "name")) as [b|e7] eqn:E7;
    [|intros [= <- <-]; left;
      destruct (getitem_raises _ _ _ E7) as [-> | ->]; auto].
  rewrite bind_lift.
  destruct (Py.getitem res (U "s3Object")) as [s3Object|e8] eqn:E8;
    [|intros [= <- <-]; left;
      destruct (getitem_raises _ _ _ E8) as [-> | ->]; auto].
  rewrite bind_lift.
  destruct (Py.getitem s3Object (U "key")) as [k|e9] eqn:E9;
    [|intros [= <- <-]; left;
      destruct (getitem_raises _ _ _ E9) as [-> | ->]; auto].
  rewrite bind_lift.
  destruct (Py.get s3Object (U "versionId") JNull) as [v|e10] eqn:E10;
    [|intros [= <- <-]; left; rewrite (get_raises _ _ _ _ E10); auto].
  destruct (z <? Tagger.SCORE_THRESHOLD cfg); [discriminate|].
  rewrite (remediation_run py s3 cfg desc b k v st).
  destruct (escapes (s3 (calls st) (tag_put py cfg desc (b, k, v)))) as [e'|] eqn:Hesc.
  - intros [= <- <-]. right. split; [eapply escapes_not_ClientError, Hesc|].
    exists (tag_put py cfg desc (b, k, v)). split; [reflexivity|].
    exists (calls st). split.
    + unfold escapes in Hesc.
      destruct (s3 (calls st) (tag_put py cfg desc (b, k, v))) as [a|e''];
        [discriminate|].
      destruct (is_ClientError e''); [discriminate|]. congruence.
    + simpl. apply in_or_app. right. left. reflexivity.
  - intros [= Hg <-]. right. split; [eapply guarded_not_ClientError, Hg|].
    exists (lifecycle_put cfg (b, k, v)). split; [reflexivity|].
    exists (calls st ++ [tag_put py cfg desc (b, k, v)]). split.
    + unfold guarded, escapes in Hg. cbn [tag_put lifecycle_put].
      destruct (s3 _ (put_bucket_lifecycle_configuration _ _)) as [a|e''];
        [simpl in Hg; discriminate|].
      destruct (is_ClientError e''); simpl in Hg; [discriminate|]. congruence.
    + simpl. apply in_or_app. right. right. left. reflexivity.
Qed.

Lemma report_location_raises record e :
  report_location record = Raise e -> e = AttributeError.
Proof.
  unfold report_location, record_field.
  destruct (Py.get record (U "s3") (JDict ∅)) as [s3_|e0] eqn:E0;
    [|intros [= <-]; eapply get_raises, E0].
  destruct (Py.get s3_ (U "bucket") (JDict ∅)) as [b_|e1] eqn:E1;
    [|intros [= <-]; eapply get_raises, E1].
  destruct (Py.get b_ (U "name") JNull) as [b|e2] eqn:E2;
    [|intros [= <-]; eapply get_raises, E2].
  destruct (Py.get s3_ (U "object") (JDict ∅)) as [o_|e3] eqn:E3;
    [|intros [= <-]; eapply get_raises, E3].
  destruct (Py.get o_ (U "key") JNull) as [k|e4] eqn:E4;
    [|intros [= <-]; eapply get_raises, E4].
  assert (Hv : forall key' : json,
            match Py.get o_ (U "versionId") JNull with
            | Ok version_id => Ok (b, key', version_id)
            | Raise e => Raise e
            end = Raise e -> e = AttributeError).
  { intros key'. destruct (Py.get o_ (U "versionId") JNull) as [v|e5] eqn:E5;
      [discriminate|intros [= <-]; eapply get_raises, E5]. }
  destruct (Py.truthy k); [|apply Hv].
  destruct k; simpl; try (intros [= <-]; reflexivity). apply Hv.
Qed.

(** The exceptions that leave [process_record]. *)
Lemma process_record_raises py s3 cfg record st e st' :
  Tagger.process_record py s3 cfg record st = (Raise e, st') ->
  e <> ClientError /\
  (builtin_exn e = true \/
   exists c h, (is_tag_put c || is_lifecycle_put c = true) /\
               s3 h c = Raise e /\ In c (calls st')).
Proof.
  destruct (report_location record) as [loc|e0] eqn:Hloc.
  - rewrite (process_record_located _ _ _ _ _ _ Hloc). intros H.
    destruct (process_report_raises _ _ _ _ _ _ _ H)
      as [[Hb _]|[Hc (c & Hput & h & Hh & Hin)]].
    + split; [intros ->; discriminate|left; exact Hb].
    + split; [intros ->; discriminate|]. right. exists c, h. auto.
  - rewrite (process_record_unlocated _ _ _ _ _ _ Hloc). intros [= <- <-].
    rewrite (report_location_raises _ _ Hloc).
    split; [discriminate|left; reflexivity].
Qed.

(** X3: whatever the record and whatever the service answers,
    [process_record] never lets a [ClientError] out; an exception that
    leaves it is one of its own expressions ([AttributeError], [KeyError],
    [TypeError], [ValueError], [OverflowError]) or an exception, other than
    [ClientError], that the client raised on the tag-put or on the
    lifecycle-put. *)
Theorem X3_process_record_exceptions py s3 cfg record st e st' :
  Tagger.process_record py s3 cfg record st = (Raise e, st') ->
  e <> ClientError /\
  (builtin_exn e = true \/
   exists c h, (is_tag_put c || is_lifecycle_put c = true) /\
               s3 h c = Raise e /\ In c (calls st')).
Proof. apply process_record_raises. Qed.

Lemma X3_process_record_exceptions_witness :
  BotoCoreError <> ClientError /\
  (builtin_exn BotoCoreError = true \/
   exists c h,
     (is_tag_put c || is_lifecycle_put c = true) /\
     serving_tag_put_raising BotoCoreError
       (report_of 4 "Medium" "data" "a.csv") h c = Raise BotoCoreError /\
     In c [ get_object (JStr (U "b")) (JStr (U "r.json")) None;
            put_object_tagging (JStr (U "data")) (JStr (U "a.csv"))
              [(U "Severity", U "Medium")] None ]).
Proof.
  refine (X3_process_record_exceptions py0
            (serving_tag_put_raising BotoCoreError
               (report_of 4 "Medium" "data" "a.csv"))
            default_config (record_of "b" "r.json") initial BotoCoreError
            {| calls :=
                 [ get_object (JStr (U "b")) (JStr (U "r.json")) None;
                   put_object_tagging (JStr (U "data")) (JStr (U "a.csv"))
                     [(U "Severity", U "Medium")] None ];
               metrics := [] |} _).
  vm_compute; reflexivity.
Defined.

(** ** No remediation below the threshold *)

(** Without a score at or above the threshold, the fetch is the only
    call. *)
Lemma process_record_quiet py s3 cfg record loc st :
  report_location record = Ok loc ->
  (forall s, report_score py (fetched s3 (calls st) loc) = Some s ->
             s < Tagger.SCORE_THRESHOLD cfg) ->
  calls (snd (Tagger.process_record py s3 cfg record st))
  = calls st ++ [fetch_call loc].
Proof.
  intros Hloc Hlow. rewrite (process_record_located _ _ _ _ _ _ Hloc).
  set (data := fetched s3 (calls st) loc) in *.
  set (st1 := called (fetch_call loc) st).
  destruct (report_score py data) as [s|] eqn:Hs.
  - specialize (Hlow s eq_refl).
    destruct (severity_field data (U "description")) as [desc|] eqn:Hd.
    + rewrite (process_report_scored _ _ _ _ _ _ _ Hs Hd).
      destruct (resources_missing data) eqn:Hm; [reflexivity|].
      destruct (affected_resource data) as [[[b k] v]|] eqn:Hres.
      * apply Z.ltb_lt in Hlow. rewrite Hlow. reflexivity.
      * destruct (process_report_malformed py s3 cfg data s desc st1 Hs Hd Hm Hres)
          as [e ->]. reflexivity.
    + rewrite (process_report_no_description _ _ _ _ _ _ Hs Hd). reflexivity.
  - destruct (Py.truthy data) eqn:Ht.
    + destruct (process_report_no_score py s3 cfg data st1 Ht Hs) as [e ->].
      reflexivity.
    + rewrite (process_report_empty _ _ _ _ _ Ht). reflexivity.
Qed.

(** X4: [process_record] makes a tag-put or a lifecycle-put only for a
    record whose fetched report has a severity score at or above the
    threshold: whatever calls were made before, if any of the calls that
    [process_record] adds to them is a tag-put or a lifecycle-put, then a
    location was read from the record and the report fetched there has a
    score [s >= T]. Below the threshold, without a score or without a
    report, no put is issued, whatever else the report holds. *)
Theorem X4_puts_require_threshold py s3 cfg record st new c :
  calls (snd (Tagger.process_record py s3 cfg record st)) = calls st ++ new ->
  In c new ->
  is_tag_put c || is_lifecycle_put c = true ->
  exists loc s,
    report_location record = Ok loc /\
    report_score py (fetched s3 (calls st) loc) = Some s /\
    Tagger.SCORE_THRESHOLD cfg <= s.
Proof.
  intros Hnew Hin Hput.
  destruct (report_location record) as [loc|e] eqn:Hloc.
  2:{ rewrite (process_record_unlocated _ _ _ _ _ _ Hloc) in Hnew.
      simpl in Hnew. rewrite <- (app_nil_r (calls st)) in Hnew at 1.
      apply app_inv_head in Hnew. subst new. contradiction. }
  assert (Hquiet : calls (snd (Tagger.process_record py s3 cfg record st))
                   = calls st ++ [fetch_call loc] -> False).
  { intros Hq. rewrite Hq in Hnew. apply app_inv_head in Hnew. subst new.
    destruct Hin as [<-|[]]. destruct loc as [[b k] v]. discriminate. }
  exists loc.
  destruct (report_score py (fetched s3 (calls st) loc)) as [s|] eqn:Hs.
  - exists s. split; [reflexivity|]. split; [reflexivity|].
    destruct (Z.ltb_spec s (Tagger.SCORE_THRESHOLD cfg)) as [Hlt|Hle];
      [|exact Hle].
    exfalso. apply Hquiet. apply process_record_quiet; [exact Hloc|].
    rewrite Hs. intros s' [= <-]. exact Hlt.
  - exfalso. apply Hquiet. apply process_record_quiet; [exact Hloc|].
    rewrite Hs. discriminate.
Qed.

Lemma X4_puts_require_threshold_witness :
  exists loc s,
    report_location (record_of "b" "f%2Bx.json") = Ok loc /\
    report_score py0
      (fetched (serving (report_of 5 "High" "data" "secret.csv"))
         (calls initial) loc) = Some s /\
    Tagger.SCORE_THRESHOLD default_config <= s.
Proof.
  refine (X4_puts_require_threshold py0
            (serving (report_of 5 "High" "data" "secret.csv"))
            default_config (record_of "b" "f%2Bx.json") initial
            [ get_object (JStr (U "b")) (JStr (U "f+x.json")) None;
              put_object_tagging (JStr (U "data")) (JStr (U "secret.csv"))
                [(U "Severity", U "High")] None;
              put_bucket_lifecycle_configuration (JStr (U "data"))
                [ {| Filter_Prefix := JStr (U "secret.csv");
                     Status := "Enabled";
                     NoncurrentVersionTransitions := [(365, "GLACIER"%string)];
                     NoncurrentVersionExpiration := 1825 |} ] ]
            (put_object_tagging (JStr (U "data")) (JStr (U "secret.csv"))
               [(U "Severity", U "High")] None) _ _ _).
  - vm_compute; reflexivity.
  - right. left. reflexivity.
  - reflexivity.
Defined.

(** ** What a record leaves behind *)

Lemma within_footprint_refl n st : within_footprint n st st.
Proof.
  exists [], []. rewrite !app_nil_r. simpl.
  repeat split; try lia; intros ? [].
Qed.

Lemma within_footprint_trans n m st st' st'' :
  within_footprint n st st' -> within_footprint m st' st'' ->
  within_footprint (n + m) st st''.
Proof.
  intros (new & added & Hc & Hm & Hl & Hla & Hk & Hn)
         (new' & added' & Hc' & Hm' & Hl' & Hla' & Hk' & Hn').
  exists (new ++ new'), (added ++ added').
  rewrite Hc', Hc, Hm', Hm, !app_assoc, !length_app.
  repeat split; try lia.
  - intros c Hin. apply in_app_or in Hin as [H|H]; auto.
  - apply in_app_or in H as [H|H]; [apply (Hn _ H)|apply (Hn' _ H)].
  - apply in_app_or in H as [H|H]; [apply (Hn _ H)|apply (Hn' _ H)].
Qed.

(** The footprint of a fetch alone, and of a fetch and a counter. *)
Lemma footprint_fetch loc st :
  within_footprint 1 st (called (fetch_call loc) st).
Proof.
  exists [fetch_call loc], []. simpl. rewrite app_nil_r.
  repeat split; try lia.
  intros c [<-|[]]. destruct loc as [[b k] v]. reflexivity.
Qed.

Lemma footprint_fetch_counted name loc st :
  In name tagger_counters ->
  within_footprint 1 st (counted name (called (fetch_call loc) st)).
Proof.
  intros Hname. exists [fetch_call loc], [(name, 1)]. simpl.
  repeat split; try lia.
  - intros c [<-|[]]. destruct loc as [[b k] v]. reflexivity.
  - destruct H as [<-|[]]. exact Hname.
  - destruct H as [<-|[]]. reflexivity.
Qed.

Lemma process_record_footprint py s3 cfg record st :
  within_footprint 1 st (snd (Tagger.process_record py s3 cfg record st)).
Proof.
  destruct (report_location record) as [loc|e] eqn:Hloc.
  2:{ rewrite (process_record_unlocated _ _ _ _ _ _ Hloc).
      apply within_footprint_refl. }
  set (data := fetched s3 (calls st) loc).
  set (st1 := called (fetch_call loc) st).
  assert (Hlocated := process_record_located py s3 cfg record loc st Hloc).
  fold data st1 in Hlocated.
  destruct (Py.truthy data) eqn:Ht.
  2:{ rewrite Hlocated, (process_report_empty _ _ _ _ _ Ht).
      apply footprint_fetch_counted. simpl. auto. }
  destruct (report_score py data) as [s|] eqn:Hs.
  2:{ rewrite Hlocated.
      destruct (process_report_no_score py s3 cfg data st1 Ht Hs) as [e ->].
      apply footprint_fetch. }
  destruct (severity_field data (U "description")) as [desc|] eqn:Hd.
  2:{ rewrite Hlocated, (process_report_no_description _ _ _ _ _ _ Hs Hd).
      apply footprint_fetch. }
  destruct (affected_resource data) as [res|] eqn:Hres.
  2:{ rewrite Hlocated. destruct (resources_missing data) eqn:Hm.
      - rewrite (process_report_scored _ _ _ _ _ _ _ Hs Hd), Hm.
        apply footprint_fetch_counted. simpl. auto.
      - destruct (process_report_malformed py s3 cfg data s desc st1 Hs Hd Hm Hres)
          as [e ->].
        apply footprint_fetch. }
  destruct (Z.ltb_spec s (Tagger.SCORE_THRESHOLD cfg)) as [Hlt|Hle].
  - rewrite Hlocated, (process_report_scored _ _ _ _ _ _ _ Hs Hd).
    rewrite (affected_resource_not_missing _ _ Hres), Hres.
    destruct res as [[b k] v]. apply Z.ltb_lt in Hlt. rewrite Hlt.
    apply footprint_fetch_counted. simpl. auto.
  - rewrite (process_record_at_threshold py s3 cfg record loc s desc res st
               Hloc Hs Hle Hd Hres).
    assert (Hfetch : is_get_object (fetch_call loc) = true)
      by (destruct loc as [[? ?] ?]; reflexivity).
    assert (Htag : is_tag_put (tag_put py cfg desc res) = true)
      by (destruct res as [[? ?] ?]; reflexivity).
    assert (Hput : is_lifecycle_put (lifecycle_put cfg res) = true)
      by (destruct res as [[? ?] ?]; reflexivity).
    unfold escapes, tagging_counter.
    destruct (s3 (calls st ++ [fetch_call loc]) (tag_put py cfg desc res))
      as [a|e]; [|destruct (is_ClientError e)].
    + exists [fetch_call loc; tag_put py cfg desc res; lifecycle_put cfg res],
             [("TaggingSuccess"%string, 1)].
      simpl. rewrite <- app_assoc. repeat split; try lia.
      * intros c [<-|[<-|[<-|[]]]];
          rewrite ?Hfetch, ?Htag, ?Hput, ?orb_true_r; reflexivity.
      * destruct H as [<-|[]]. simpl. auto 10.
      * destruct H as [<-|[]]. reflexivity.
    + exists [fetch_call loc; tag_put py cfg desc res; lifecycle_put cfg res],
             [("TaggingFailed"%string, 1)].
      simpl. rewrite <- app_assoc. repeat split; try lia.
      * intros c [<-|[<-|[<-|[]]]];
          rewrite ?Hfetch, ?Htag, ?Hput, ?orb_true_r; reflexivity.
      * destruct H as [<-|[]]. simpl. auto 10.
      * destruct H as [<-|[]]. reflexivity.
    + exists [fetch_call loc; tag_put py cfg desc res], [].
      simpl. rewrite <- app_assoc, app_nil_r. repeat split; try lia.
      intros c [<-|[<-|[]]];
        rewrite ?Hfetch, ?Htag, ?orb_true_r; reflexivity.
Qed.

(** X5: whatever the record and whatever the service answers, one
    [process_record] only adds to the calls and to the metrics: at most
    three calls, each a [get_object], a tag-put or a lifecycle-put (never a
    put of bucket notifications), and at most one counter, one of
    ['EmptyObject'], ['MissingResources'], ['TaggingSkipped'],
    ['TaggingFailed'] and ['TaggingSuccess'], incremented by one. This holds
    also when the record raises. *)
Theorem X5_record_footprint py s3 cfg record st :
  exists new added,
    calls (snd (Tagger.process_record py s3 cfg record st)) = calls st ++ new /\
    metrics (snd (Tagger.process_record py s3 cfg record st))
    = metrics st ++ added /\
    (length new <= 3)%nat /\ (length added <= 1)%nat /\
    (forall c, In c new ->
       is_get_object c || is_tag_put c || is_lifecycle_put c = true) /\
    (forall m, In m added -> In (fst m) tagger_counters /\ snd m = 1).
Proof. apply (process_record_footprint py s3 cfg record st). Qed.

(** ** The handler over the records of an event *)

Lemma for_each_footprint body :
  (forall x st, within_footprint 1 st (snd (body x st))) ->
  forall items st,
    within_footprint (length items) st (snd (for_each body items st)).
Proof.
  intros Hbody. induction items as [|x items IH]; intros st; simpl.
  - apply within_footprint_refl.
  - unfold bind. specialize (Hbody x st).
    destruct (body x st) as [[[]|e] st1]; simpl in *.
    + apply (within_footprint_trans 1 (length items) st st1); [exact Hbody|].
      apply IH.
    + destruct Hbody as (new & added & Hc & Hm & Hl & Hla & Hk & Hn).
      exists new, added. repeat split; try assumption; try lia;
        apply (Hn _ H).
Qed.

Lemma for_each_raises (P : exn -> Prop) body :
  (forall x st e st', body x st = (Raise e, st') -> P e) ->
  forall items st e st', for_each body items st = (Raise e, st') -> P e.
Proof.
  intros Hbody. induction items as [|x items IH]; intros st e st'; simpl.
  - discriminate.
  - unfold bind. destruct (body x st) as [[[]|e0] st1] eqn:Hx.
    + apply IH.
    + intros [= <- <-]. eapply Hbody, Hx.
Qed.

(** X6: for an event whose [Records] is a list of [n] records, whatever the
    records and whatever the service answers, [handler] makes at most [3 n]
    calls, none of them but fetches, tag-puts and lifecycle-puts, and
    increments at most [n] counters, each one of the tagger's five and by
    one; calls and metrics made before are kept. The bound holds also when
    the handler raises. *)
Theorem X6_handler_footprint (py : python) (s3 : s3_client)
    (cfg : Tagger.config) (ev : gmap (list N) json) (items : list json)
    (st : state) :
  ev !! U "Records" = Some (JList items) ->
  exists new added,
    calls (snd (Tagger.handler py s3 cfg (JDict ev) st)) = calls st ++ new /\
    metrics (snd (Tagger.handler py s3 cfg (JDict ev) st))
    = metrics st ++ added /\
    (length new <= 3 * length items)%nat /\
    (length added <= length items)%nat /\
    (forall c, In c new ->
       is_get_object c || is_tag_put c || is_lifecycle_put c = true) /\
    (forall m, In m added -> In (fst m) tagger_counters /\ snd m = 1).
Proof.
  intros Hev. rewrite (handler_records _ _ _ _ _ _ Hev).
  apply (for_each_footprint (Tagger.process_record py s3 cfg)).
  apply process_record_footprint.
Qed.

Lemma X6_handler_footprint_witness :
  let s3 := holding [ ("first.json"%string, report_of 2 "Low" "data" "x.csv");
                      ("last.json"%string, report_of 5 "High" "data" "y.csv") ] in
  let items := [record_of "b" "first.json"; record_of "b" "last.json"] in
  exists new added,
    calls (snd (Tagger.handler py0 s3 default_config (event_of items) initial))
    = new /\
    metrics (snd (Tagger.handler py0 s3 default_config (event_of items) initial))
    = added /\
    (length new <= 6)%nat /\ (length added <= 2)%nat /\
    (forall c, In c new ->
       is_get_object c || is_tag_put c || is_lifecycle_put c = true) /\
    (forall m, In m added -> In (fst m) tagger_counters /\ snd m = 1).
Proof.
  intros s3 items.
  refine (X6_handler_footprint py0 s3 default_config
            {[ U "Records" := JList items ]} items initial _).
  vm_compute; reflexivity.
Defined.

(** X7: whatever the event and whatever the service answers, [handler]
    never fails with a [ClientError]: the error responses of the service are
    all taken care of inside (swallowed by the fetch, counted by the
    tag-put, ignored by the lifecycle-put). *)
Theorem X7_handler_never_ClientError py s3 cfg event st :
  fst (Tagger.handler py s3 cfg event st) <> Raise ClientError.
Proof.
  destruct (Tagger.handler py s3 cfg event st) as [[[]|e] st'] eqn:H;
    [discriminate|].
  simpl. intros [= He]. subst e. revert H. unfold Tagger.handler.
  rewrite bind_lift.
  destruct (Py.get event (U "Records") (JList [])) as [records|e0] eqn:E0;
    [|intros [= -> _]; discriminate (get_raises _ _ _ _ E0)].
  rewrite bind_lift.
  destruct (Py.len records) as [n|e1] eqn:E1;
    [|intros [= -> _]; destruct records; discriminate].
  rewrite bind_lift.
  destruct (Py.iter records) as [items|e2] eqn:E2;
    [|intros [= -> _]; destruct records; discriminate].
  intros H.
  refine (for_each_raises (fun e => e <> ClientError)
            (Tagger.process_record py s3 cfg) _ items st ClientError st' H
            eq_refl).
  intros x st0 e st0' Hx.
  apply (process_record_raises py s3 cfg x st0 e st0' Hx).
Qed.

(** X8: for an event whose [Records] is a list of records from each of
    which [process_record] reads a location (none of them raises
    [AttributeError] before its fetch), when the service cannot serve any
    report (every [get_object] raises, or gives a body that is not JSON),
    [handler] still goes through all the records of the event and returns
    normally: one [get_object] a record, at the location read from it, in
    the order of the records, ['EmptyObject'] incremented once a record, and
    no put at all. *)
Theorem X8_handler_outage (py : python) (s3 : s3_client)
    (cfg : Tagger.config) (ev : gmap (list N) json) (items : list json)
    (locs : list (json * json * json)) (st : state) :
  ev !! U "Records" = Some (JList items) ->
  Forall2 (fun record loc => report_location record = Ok loc) items locs ->
  (forall history loc, fetch_fails s3 history loc = true) ->
  Tagger.handler py s3 cfg (JDict ev) st
  = (Ok tt,
     {| calls := calls st ++ map fetch_call locs;
        metrics := metrics st
                   ++ map (fun _ => ("EmptyObject"%string, 1)) locs |}).
Proof.
  intros Hev Hlocs Hfail. rewrite (handler_records _ _ _ _ _ _ Hev).
  clear Hev. revert st.
  induction Hlocs as [|record loc items locs Hloc _ IH]; intros st; simpl.
  - rewrite !app_nil_r. destruct st; reflexivity.
  - unfold bind. rewrite (process_record_located _ _ _ _ _ _ Hloc).
    rewrite process_report_empty.
    + rewrite IH. unfold counted, called. simpl.
      rewrite <- !app_assoc. reflexivity.
    + specialize (Hfail (calls st) loc). unfold fetch_fails in Hfail.
      unfold fetched.
      destruct (s3 (calls st) (fetch_call loc)) as [[v|e]|e];
        [discriminate|reflexivity|reflexivity].
Qed.

Lemma X8_handler_outage_witness :
  Tagger.handler py0 (unreachable BotoCoreError) default_config
    (event_of [record_of "b" "one.json"; record_of "b" "two+2.json"]) initial
  = (Ok tt,
     {| calls := [ get_object (JStr (U "b")) (JStr (U "one.json")) None;
                   get_object (JStr (U "b")) (JStr (U "two 2.json")) None ];
        metrics := [ ("EmptyObject"%string, 1); ("EmptyObject"%string, 1) ] |}).
Proof.
  refine (X8_handler_outage py0 (unreachable BotoCoreError) default_config
            {[ U "Records" :=
                 JList [record_of "b" "one.json"; record_of "b" "two+2.json"] ]}
            [record_of "b" "one.json"; record_of "b" "two+2.json"]
            [ (JStr (U "b"), JStr (U "one.json"), JNull);
              (JStr (U "b"), JStr (U "two 2.json"), JNull) ]
            initial _ _ _).
  - vm_compute; reflexivity.
  - repeat constructor.
  - intros history loc. reflexivity.
Defined.

(** ** Loading the module *)

Lemma getenv_int_spec py getenv name dflt :
  match Tagger.getenv_int py getenv name dflt with
  | Ok z =>
      match getenv name with
      | None => z = dflt
      | Some s => int_of_str py s = Some z
      end
  | Raise e =>
      e = Exception /\ exists s, getenv name = Some s /\ int_of_str py s = None
  end.
Proof.
  unfold Tagger.getenv_int. destruct (getenv name) as [s|]; [|reflexivity].
  destruct (int_of_str py s) eqn:H; [reflexivity|]. split; [reflexivity|].
  exists s. auto.
Qed.

(** X9: the module loads exactly when [TAG_KEY_NAME] is not set to the
    empty string and each of [SCORE_THRESHOLD], [GLACIER_TRANSITION_DAYS] and
    [EXPIRE_OBJECTS_DAYS] is unset or set to what [int()] accepts. It then
    holds a non-empty tag key and, for every variable that is unset, the
    default (['Severity'], 3, 365, 1825); otherwise loading fails with
    [Exception], never with the [ValueError] of [int()]. *)
Theorem X9_load_config py getenv :
  match Tagger.load_config py getenv with
  | Ok cfg =>
      Tagger.TAG_KEY_NAME cfg <> [] /\
      Tagger.TAG_KEY_NAME cfg
      = default (U "Severity") (getenv "TAG_KEY_NAME"%string) /\
      match getenv "SCORE_THRESHOLD"%string with
      | None => Tagger.SCORE_THRESHOLD cfg = 3
      | Some s => int_of_str py s = Some (Tagger.SCORE_THRESHOLD cfg)
      end /\
      match getenv "GLACIER_TRANSITION_DAYS"%string with
      | None => Tagger.GLACIER_TRANSITION_DAYS cfg = 365
      | Some s => int_of_str py s = Some (Tagger.GLACIER_TRANSITION_DAYS cfg)
      end /\
      match getenv "EXPIRE_OBJECTS_DAYS"%string with
      | None => Tagger.EXPIRE_OBJECTS_DAYS cfg = 1825
      | Some s => int_of_str py s = Some (Tagger.EXPIRE_OBJECTS_DAYS cfg)
      end
  | Raise e =>
      e = Exception /\
      (getenv "TAG_KEY_NAME"%string = Some [] \/
       exists name s,
         In name [ "SCORE_THRESHOLD"; "GLACIER_TRANSITION_DAYS";
                   "EXPIRE_OBJECTS_DAYS" ]%string /\
         getenv name = Some s /\ int_of_str py s = None)
  end.
Proof.
  unfold Tagger.load_config.
  pose proof (getenv_int_spec py getenv "SCORE_THRESHOLD" 3) as H1.
  pose proof (getenv_int_spec py getenv "GLACIER_TRANSITION_DAYS" 365) as H2.
  pose proof (getenv_int_spec py getenv "EXPIRE_OBJECTS_DAYS" 1825) as H3.
  destruct (getenv "TAG_KEY_NAME"%string) as [[|c tag]|] eqn:Htag; simpl.
  - split; [reflexivity|]. left. reflexivity.
  - destruct (Tagger.getenv_int py getenv "SCORE_THRESHOLD" 3) as [t|e1].
    2:{ destruct H1 as [-> (s & Hs & Hn)]. split; [reflexivity|]. right.
        exists "SCORE_THRESHOLD"%string, s. simpl. auto. }
    destruct (Tagger.getenv_int py getenv "GLACIER_TRANSITION_DAYS" 365) as [g|e2].
    2:{ destruct H2 as [-> (s & Hs & Hn)]. split; [reflexivity|]. right.
        exists "GLACIER_TRANSITION_DAYS"%string, s. simpl. auto. }
    destruct (Tagger.getenv_int py getenv "EXPIRE_OBJECTS_DAYS" 1825) as [x|e3].
    2:{ destruct H3 as [-> (s & Hs & Hn)]. split; [reflexivity|]. right.
        exists "EXPIRE_OBJECTS_DAYS"%string, s. simpl. auto. }
    simpl. repeat split; try assumption. discriminate.
  - destruct (Tagger.getenv_int py getenv "SCORE_THRESHOLD" 3) as [t|e1].
    2:{ destruct H1 as [-> (s & Hs & Hn)]. split; [reflexivity|]. right.
        exists "SCORE_THRESHOLD"%string, s. simpl. auto. }
    destruct (Tagger.getenv_int py getenv "GLACIER_TRANSITION_DAYS" 365) as [g|e2].
    2:{ destruct H2 as [-> (s & Hs & Hn)]. split; [reflexivity|]. right.
        exists "GLACIER_TRANSITION_DAYS"%string, s. simpl. auto. }
    destruct (Tagger.getenv_int py getenv "EXPIRE_OBJECTS_DAYS" 1825) as [x|e3].
    2:{ destruct H3 as [-> (s & Hs & Hn)]. split; [reflexivity|]. right.
        exists "EXPIRE_OBJECTS_DAYS"%string, s. simpl. auto. }
    simpl. repeat split; try assumption. discriminate.
Qed.

(** * Further properties of the notification configurator *)

Lemma create_run s3 event bucket config st :
  request_property event (U "BucketName") = Some bucket ->
  Py.truthy bucket = true ->
  request_property event (U "NotificationConfiguration") = Some config ->
  Py.truthy config = true ->
  Configurator.create s3 event st
  = (match s3 (calls st) (put_bucket_notification_configuration bucket config) with
     | Ok _ => Ok (JStr (U "ResultsNotifications"))
     | Raise e => Raise e
     end,
     called (put_bucket_notification_configuration bucket config) st).
Proof.
  intros Hb Ht Hc Htc.
  destruct (request_property_get _ _ _ Hb) as (props & Hp & Hbn).
  destruct (request_property_get _ _ _ Hc) as (props' & Hp' & Hcn).
  assert (props' = props) as -> by congruence.
  unfold Configurator.create, bind, lift. rewrite Hp. simpl.
  rewrite Hbn. simpl. rewrite Ht. simpl. rewrite Hcn. simpl. rewrite Htc. simpl.
  rewrite put_bucket_notification_run. simpl.
  destruct (s3 (calls st) _); reflexivity.
Qed.

Lemma delete_run s3 event bucket st :
  request_property event (U "BucketName") = Some bucket ->
  Py.truthy bucket = true ->
  Configurator.delete s3 event st
  = (match s3 (calls st) (put_bucket_notification_configuration bucket (JDict ∅)) with
     | Ok _ => Ok JNull
     | Raise e => Raise e
     end,
     called (put_bucket_notification_configuration bucket (JDict ∅)) st).
Proof.
  intros Hb Ht.
  destruct (request_property_get _ _ _ Hb) as (props & Hp & Hbn).
  unfold Configurator.delete, bind, lift. rewrite Hp. simpl.
  rewrite Hbn. simpl. rewrite Ht. simpl.
  rewrite put_bucket_notification_run. simpl.
  destruct (s3 (calls st) _); reflexivity.
Qed.

Lemma property_present event name :
  property_missing event name = false ->
  exists v, request_property event name = Some v /\ Py.truthy v = true.
Proof.
  unfold property_missing. destruct (request_property event name) as [v|];
    [|discriminate].
  intros H. exists v. split; [reflexivity|]. apply negb_false_iff, H.
Qed.

(** X10: a handler of the configurator returns normally only after the
    service has accepted the put-notification call: the request then had a
    non-empty [BucketName], the call was made on that bucket, with the
    non-empty [NotificationConfiguration] of the request for create and
    update and with the empty configuration for delete, it is the only call,
    and the value returned is ['ResultsNotifications'] for create and update
    and [None] for delete. *)
Theorem X10_success_means_installed s3 verb event st v st' :
  Configurator.registered s3 verb event st = (Ok v, st') ->
  exists bucket config,
    request_property event (U "BucketName") = Some bucket /\
    Py.truthy bucket = true /\
    match verb with
    | Configurator.Delete => config = JDict ∅ /\ v = JNull
    | _ =>
        request_property event (U "NotificationConfiguration") = Some config /\
        Py.truthy config = true /\ v = JStr (U "ResultsNotifications")
    end /\
    (exists answer,
       s3 (calls st) (put_bucket_notification_configuration bucket config)
       = Ok answer) /\
    st' = {| calls := calls st
                      ++ [put_bucket_notification_configuration bucket config];
             metrics := metrics st |}.
Proof.
  intros Hrun.
  destruct (property_missing event (U "BucketName")) eqn:Hb.
  { destruct (no_bucket_name_raises s3 verb event st Hb) as [e He]. congruence. }
  destruct (property_present _ _ Hb) as (bucket & Hbucket & Ht).
  assert (Hcreate : Configurator.create s3 event st = (Ok v, st') ->
    exists config,
      request_property event (U "NotificationConfiguration") = Some config /\
      Py.truthy config = true /\ v = JStr (U "ResultsNotifications") /\
      (exists answer,
         s3 (calls st) (put_bucket_notification_configuration bucket config)
         = Ok answer) /\
      st' = {| calls := calls st
                        ++ [put_bucket_notification_configuration bucket config];
               metrics := metrics st |}).
  { intros Hc.
    destruct (property_missing event (U "NotificationConfiguration")) eqn:Hcfg.
    { destruct (no_configuration_raises s3 event st Hcfg) as [e He]. congruence. }
    destruct (property_present _ _ Hcfg) as (config & Hconfig & Htc).
    exists config. rewrite (create_run _ _ _ _ _ Hbucket Ht Hconfig Htc) in Hc.
    destruct (s3 (calls st) _) as [answer|e]; [|discriminate].
    injection Hc as <- <-. eauto 10. }
  destruct verb; simpl in Hrun.
  - destruct (Hcreate Hrun) as (config & H1 & H2 & H3 & H4 & H5).
    exists bucket, config. auto 10.
  - destruct (Hcreate Hrun) as (config & H1 & H2 & H3 & H4 & H5).
    exists bucket, config. auto 10.
  - exists bucket, (JDict ∅). rewrite (delete_run _ _ _ _ Hbucket Ht) in Hrun.
    destruct (s3 (calls st) _) as [answer|e]; [|discriminate].
    injection Hrun as <- <-. eauto 10.
Qed.

Lemma X10_success_means_installed_witness :
  exists bucket config,
    request_property
      (request_of {[ U "BucketName" := JStr (U "results");
                     U "NotificationConfiguration" := notifications ]})
      (U "BucketName") = Some bucket /\
    Py.truthy bucket = true /\
    (config = JDict ∅ /\ JNull = JNull) /\
    (exists answer,
       serving JNull (calls initial)
         (put_bucket_notification_configuration bucket config) = Ok answer) /\
    {| calls := [put_bucket_notification_configuration (JStr (U "results"))
                   (JDict ∅)];
       metrics := [] |}
    = {| calls := calls initial
                  ++ [put_bucket_notification_configuration bucket config];
         metrics := metrics initial |}.
Proof.
  refine (X10_success_means_installed (serving JNull) Configurator.Delete
            (request_of {[ U "BucketName" := JStr (U "results");
                           U "NotificationConfiguration" := notifications ]})
            initial JNull
            {| calls := [put_bucket_notification_configuration
                           (JStr (U "results")) (JDict ∅)];
               metrics := [] |} _).
  vm_compute; reflexivity.
Defined.

(** X11: when a handler of the configurator raises, either nothing was
    called and the exception is the [ValueError] of a missing property or the
    [AttributeError] of an event or of properties that are not objects (never
    a [KeyError]), or exactly one put-notification call was made and the
    exception is the one the client raised on it, [ClientError] included:
    nothing is swallowed. No metric is ever added. *)
Theorem X11_configurator_exceptions s3 verb event st e st' :
  Configurator.registered s3 verb event st = (Raise e, st') ->
  (st' = st /\ (e = ValueError \/ e = AttributeError)) \/
  (exists bucket config,
     s3 (calls st) (put_bucket_notification_configuration bucket config)
     = Raise e /\
     st' = {| calls := calls st
                       ++ [put_bucket_notification_configuration bucket config];
              metrics := metrics st |}).
Proof.
  assert (Hput : forall (A : Type) bucket config (k : unit -> M A),
    bind (Configurator.put_bucket_notification s3 bucket config) k st
    = (Raise e, st') ->
    (forall st1, exists a, k tt st1 = (Ok a, st1)) ->
    exists bucket config,
      s3 (calls st) (put_bucket_notification_configuration bucket config)
      = Raise e /\
      st' = {| calls := calls st
                        ++ [put_bucket_notification_configuration bucket config];
               metrics := metrics st |}).
  { intros A bucket config k Hrun Hk. unfold bind in Hrun.
    rewrite put_bucket_notification_run in Hrun.
    destruct (s3 (calls st) (put_bucket_notification_configuration bucket config))
      as [a|e'] eqn:Hs3.
    - destruct (Hk (called (put_bucket_notification_configuration bucket config) st))
        as [x Hx]. rewrite Hx in Hrun. discriminate.
    - injection Hrun as <- <-. exists bucket, config. auto. }
  assert (Hcreate : Configurator.create s3 event st = (Raise e, st') ->
    (st' = st /\ (e = ValueError \/ e = AttributeError)) \/
    (exists bucket config,
       s3 (calls st) (put_bucket_notification_configuration bucket config)
       = Raise e /\
       st' = {| calls := calls st
                         ++ [put_bucket_notification_configuration bucket config];
                metrics := metrics st |})).
  { unfold Configurator.create. rewrite bind_lift.
    destruct (Py.get event (U "ResourceProperties") (JDict ∅)) as [props|e0] eqn:E0;
      [|intros [= <- <-]; left; rewrite (get_raises _ _ _ _ E0); auto].
    rewrite bind_lift.
    destruct (Py.get props (U "BucketName") JNull) as [bucket|e1] eqn:E1;
      [|intros [= <- <-]; left; rewrite (get_raises _ _ _ _ E1); auto].
    destruct (Py.truthy bucket); simpl; [|intros [= <- <-]; auto].
    rewrite bind_lift.
    destruct (Py.get props (U "NotificationConfiguration") (JDict ∅))
      as [config|e2] eqn:E2;
      [|intros [= <- <-]; left; rewrite (get_raises _ _ _ _ E2); auto].
    destruct (Py.truthy config); simpl; [|intros [= <- <-]; auto].
    intros Hrun. right. eapply Hput; [exact Hrun|].
    intros st1. eexists. reflexivity. }
  destruct verb; simpl; try exact Hcreate.
  unfold Configurator.delete. rewrite bind_lift.
  destruct (Py.get event (U "ResourceProperties") (JDict ∅)) as [props|e0] eqn:E0;
    [|intros [= <- <-]; left; rewrite (get_raises _ _ _ _ E0); auto].
  rewrite bind_lift.
  destruct (Py.get props (U "BucketName") JNull) as [bucket|e1] eqn:E1;
    [|intros [= <- <-]; left; rewrite (get_raises _ _ _ _ E1); auto].
  destruct (Py.truthy bucket); simpl; [|intros [= <- <-]; auto].
  intros Hrun. right. eapply Hput; [exact Hrun|].
  intros st1. eexists. reflexivity.
Qed.

Lemma X11_configurator_exceptions_witness :
  (initial = initial /\ (ValueError = ValueError \/ ValueError = AttributeError)) \/
  (exists bucket config,
     serving JNull (calls initial)
       (put_bucket_notification_configuration bucket config) = Raise ValueError /\
     initial
     = {| calls := calls initial
                   ++ [put_bucket_notification_configuration bucket config];
          metrics := metrics initial |}).
Proof.
  refine (X11_configurator_exceptions (serving JNull) Configurator.Create
            (JDict ∅) initial ValueError initial _).
  vm_compute; reflexivity.
Defined.

(** * Further properties of the decoding of keys *)

Lemma hex_value_digit h x :
  Urllib.hex_value h = Some x ->
  (h <> 37 /\ h <> 43 /\ h < 128 /\ x < 16)%N.
Proof.
  unfold Urllib.hex_value.
  destruct (N.leb_spec 48 h), (N.leb_spec h 57); simpl;
    try (intros [= <-]; lia);
    destruct (N.leb_spec 65 h), (N.leb_spec h 70); simpl;
    try (intros [= <-]; lia);
    destruct (N.leb_spec 97 h), (N.leb_spec h 102); simpl;
    try (intros [= <-]; lia); discriminate.
Qed.

Lemma replace_plus_plain s :
  Forall (fun c => c <> 43%N) s -> Urllib.replace_plus s = s.
Proof.
  induction 1 as [|c s Hc _ IH]; [reflexivity|].
  simpl. apply N.eqb_neq in Hc. rewrite Hc, IH. reflexivity.
Qed.

Lemma unquote_plus_plain k :
  Forall (fun c => c <> 37%N /\ c <> 43%N) k -> Urllib.unquote_plus k = k.
Proof.
  intros H. unfold Urllib.unquote_plus, Urllib.unquote.
  rewrite replace_plus_plain by (eapply Forall_impl; [exact H|]; simpl; tauto).
  replace (existsb (N.eqb 37) k) with false; [reflexivity|].
  symmetry. induction H as [|c k [Hc _] _ IH]; [reflexivity|].
  cbn [existsb]. rewrite IH, orb_false_r. apply N.eqb_neq. congruence.
Qed.

(** X12: a key in which neither ['%'] nor ['+'] occurs is fetched as it is:
    for every record whose key is such a string (non-ASCII characters
    included), the [get_object] of [process_record] is made with that very
    key, with the bucket name of the record and with its version identifier
    when it has a non-empty one. *)
Theorem X12_plain_key_fetched_as_is py s3 cfg record k st :
  typed_envelope record = true ->
  envelope_field record (U "object") (U "key") = Some (JStr k) ->
  Forall (fun c => c <> 37%N /\ c <> 43%N) k ->
  exists rest,
    calls (snd (Tagger.process_record py s3 cfg record st))
    = calls st
      ++ get_object
           (default JNull (envelope_field record (U "bucket") (U "name")))
           (JStr k)
           (version_param
              (default JNull
                 (envelope_field record (U "object") (U "versionId"))))
         :: rest.
Proof.
  intros Hty Hk Hplain.
  pose proof (typed_envelope_location record Hty) as Hloc.
  rewrite Hk, (unquote_plus_plain k Hplain) in Hloc.
  destruct (process_record_calls py s3 cfg record _ st Hloc) as (rest & Hc & _).
  exists rest. exact Hc.
Qed.

Lemma X12_plain_key_fetched_as_is_witness :
  exists rest,
    calls (snd (Tagger.process_record py0
                  (serving (report_of 2 "Low" "data" "x.csv")) default_config
                  (record_of "reports" "jobs/2024/result.jsonl") initial))
    = get_object (JStr (U "reports")) (JStr (U "jobs/2024/result.jsonl")) None
      :: rest.
Proof.
  refine (X12_plain_key_fetched_as_is py0
            (serving (report_of 2 "Low" "data" "x.csv")) default_config
            (record_of "reports" "jobs/2024/result.jsonl")
            (U "jobs/2024/result.jsonl") initial _ _ _).
  - vm_compute; reflexivity.
  - vm_compute; reflexivity.
  - repeat constructor; discriminate.
Defined.

Lemma unquote_to_bytes_escape h1 h2 x y p z :
  Urllib.hex_value h1 = Some x -> Urllib.hex_value h2 = Some y ->
  Urllib.unquote_to_bytes (p ++ [37; h1; h2]%N ++ z)
  = Urllib.unquote_to_bytes p ++ (16 * x + y)%N :: Urllib.unquote_to_bytes z.
Proof.
  intros H1 H2.
  destruct (hex_value_digit _ _ H1) as (N1 & _ & _ & _).
  destruct (hex_value_digit _ _ H2) as (N2 & _ & _ & _).
  pose proof (UrllibFacts.split_on_nonempty 37 z) as Hne.
  destruct (Urllib.split_on 37 z) as [|hz tz] eqn:Hz; [congruence|].
  assert (Hy : Urllib.split_on 37 ([37; h1; h2]%N ++ z)
               = [] :: (h1 :: h2 :: hz) :: tz).
  { simpl app. cbn [Urllib.split_on]. rewrite N.eqb_refl.
    apply N.eqb_neq in N1, N2. rewrite N1, N2, Hz. reflexivity. }
  rewrite (UrllibFacts.unquote_to_bytes_app p _ _ _ Hy).
  - rewrite (UrllibFacts.unquote_to_bytes_pieces _ _ _ Hy),
            (UrllibFacts.unquote_to_bytes_pieces _ _ _ Hz).
    unfold unquote_items. simpl. unfold Urllib.unquote_item, Urllib.hextobyte.
    rewrite H1, H2. reflexivity.
  - intros l. rewrite !app_nil_r. reflexivity.
Qed.

(** X13: every escape of an ASCII character is decoded to that character,
    wherever it stands in the key and whatever surrounds it: ['%'] followed
    by two hexadecimal digits (of either case) of value below 128 becomes
    the character of that code (['%20'] a space, ['%2F'] a slash, ['%25'] a
    percent sign), and the rest of the key is decoded as it would be on its
    own. *)
Theorem X13_ascii_escape_decoded a h1 h2 x y z :
  Urllib.hex_value h1 = Some x ->
  Urllib.hex_value h2 = Some y ->
  (16 * x + y < 128)%N ->
  Urllib.unquote_plus (a ++ [37; h1; h2]%N ++ z)
  = Urllib.unquote_plus a ++ [(16 * x + y)%N] ++ Urllib.unquote_plus z.
Proof.
  intros H1 H2 Hc.
  destruct (hex_value_digit _ _ H1) as (_ & P1 & A1 & _).
  destruct (hex_value_digit _ _ H2) as (_ & P2 & A2 & _).
  unfold Urllib.unquote_plus. rewrite !UrllibFacts.replace_plus_app.
  rewrite (replace_plus_plain [37; h1; h2]%N)
    by (constructor; [discriminate|]; constructor; [exact P1|];
        constructor; [exact P2|]; constructor).
  rewrite !UrllibFacts.unquote_parts_eq.
  apply (UrllibFacts.unquote_parts_boundary [37; h1; h2]%N (16 * x + y)%N).
  - constructor; [reflexivity|]. constructor; [exact A1|].
    constructor; [exact A2|]. constructor.
  - exact Hc.
  - intros p q. apply unquote_to_bytes_escape; assumption.
Qed.

Lemma X13_ascii_escape_decoded_witness :
  Urllib.unquote_plus (U "a b/" ++ U "%2f" ++ U "c%25")
  = Urllib.unquote_plus (U "a b/") ++ U "/" ++ Urllib.unquote_plus (U "c%25").
Proof.
  refine (X13_ascii_escape_decoded (U "a b/") 50 102 2 15 (U "c%25") _ _ _).
  - reflexivity.
  - reflexivity.
  - reflexivity.
Defined.

(** ** Decoding undoes the URL encoding *)

Section RoundTrip.
#[local] Open Scope N_scope.

Lemma in_range_true lo hi b : lo <= b -> b <= hi -> Urllib.in_range lo hi b = true.
Proof.
  intros H1 H2. unfold Urllib.in_range.
  apply andb_true_iff. split; apply N.leb_le; assumption.
Qed.

Lemma in_range_false lo hi b : b < lo \/ hi < b -> Urllib.in_range lo hi b = false.
Proof.
  intros H. unfold Urllib.in_range. apply andb_false_iff.
  destruct H as [H|H]; [left|right]; apply N.leb_gt; assumption.
Qed.

Lemma not_ascii b : 128 <= b -> (b <? 128) = false.
Proof. intros H. apply N.ltb_ge. exact H. Qed.

Lemma second_ok_true b0 b1 :
  128 <= b1 -> b1 <= 191 ->
  (b0 = 224 -> 160 <= b1) -> (b0 = 237 -> b1 <= 159) ->
  (b0 = 240 -> 144 <= b1) -> (b0 = 244 -> b1 <= 143) ->
  Urllib.second_ok b0 b1 = true.
Proof.
  intros Hlo Hhi H224 H237 H240 H244. unfold Urllib.second_ok.
  destruct (N.eqb_spec b0 224) as [E|_]; [apply in_range_true; auto|].
  destruct (N.eqb_spec b0 237) as [E|_]; [apply in_range_true; auto|].
  destruct (N.eqb_spec b0 240) as [E|_]; [apply in_range_true; auto|].
  destruct (N.eqb_spec b0 244) as [E|_]; [apply in_range_true; auto|].
  apply in_range_true; assumption.
Qed.

Lemma utf8_decode_two b0 b1 rest :
  194 <= b0 -> b0 <= 223 -> 128 <= b1 -> b1 <= 191 ->
  Urllib.utf8_decode_replace (b0 :: b1 :: rest)
  = ((b0 - 192) * 64 + (b1 - 128)) :: Urllib.utf8_decode_replace rest.
Proof.
  intros H0 H0' H1 H1'. cbn [Urllib.utf8_decode_replace].
  rewrite (not_ascii b0) by lia.
  rewrite (in_range_true 194 223 b0) by assumption.
  unfold Urllib.is_continuation. rewrite (in_range_true 128 191 b1) by assumption.
  reflexivity.
Qed.

Lemma utf8_decode_three b0 b1 b2 rest :
  224 <= b0 -> b0 <= 239 -> Urllib.second_ok b0 b1 = true ->
  128 <= b2 -> b2 <= 191 ->
  Urllib.utf8_decode_replace (b0 :: b1 :: b2 :: rest)
  = ((b0 - 224) * 4096 + (b1 - 128) * 64 + (b2 - 128))
      :: Urllib.utf8_decode_replace rest.
Proof.
  intros H0 H0' H1 H2 H2'. cbn [Urllib.utf8_decode_replace].
  rewrite (not_ascii b0) by lia.
  rewrite (in_range_false 194 223 b0) by lia.
  rewrite (in_range_true 224 239 b0) by assumption.
  rewrite H1. unfold Urllib.is_continuation.
  rewrite (in_range_true 128 191 b2) by assumption. reflexivity.
Qed.

Lemma utf8_decode_four b0 b1 b2 b3 rest :
  240 <= b0 -> b0 <= 244 -> Urllib.second_ok b0 b1 = true ->
  128 <= b2 -> b2 <= 191 -> 128 <= b3 -> b3 <= 191 ->
  Urllib.utf8_decode_replace (b0 :: b1 :: b2 :: b3 :: rest)
  = ((b0 - 240) * 262144 + (b1 - 128) * 4096 + (b2 - 128) * 64 + (b3 - 128))
      :: Urllib.utf8_decode_replace rest.
Proof.
  intros H0 H0' H1 H2 H2' H3 H3'. cbn [Urllib.utf8_decode_replace].
  rewrite (not_ascii b0) by lia.
  rewrite (in_range_false 194 223 b0) by lia.
  rewrite (in_range_false 224 239 b0) by lia.
  rewrite (in_range_true 240 244 b0) by assumption.
  rewrite H1. unfold Urllib.is_continuation.
  rewrite (in_range_true 128 191 b2) by assumption.
  rewrite (in_range_true 128 191 b3) by assumption. reflexivity.
Qed.

Lemma utf8_decode_encode c rest :
  scalar_value c = true ->
  Urllib.utf8_decode_replace (utf8_encode c ++ rest)
  = c :: Urllib.utf8_decode_replace rest.
Proof.
  unfold scalar_value. intros H. apply andb_true_iff in H as [Hmax Hsur].
  apply N.ltb_lt in Hmax. apply negb_true_iff, andb_false_iff in Hsur.
  assert (Hs : c < 55296 \/ 57344 <= c).
  { destruct Hsur as [H|H]; [left; apply N.leb_gt, H|right; apply N.ltb_ge, H]. }
  clear Hsur.
  pose proof (N.div_mod c 64 ltac:(lia)) as D1.
  pose proof (N.mod_lt c 64 ltac:(lia)) as M1.
  pose proof (N.div_mod (c / 64) 64 ltac:(lia)) as D2.
  pose proof (N.mod_lt (c / 64) 64 ltac:(lia)) as M2.
  pose proof (N.div_mod (c / 64 / 64) 64 ltac:(lia)) as D3.
  pose proof (N.mod_lt (c / 64 / 64) 64 ltac:(lia)) as M3.
  unfold utf8_encode.
  generalize dependent (c mod 64). intros r1 D1 M1.
  generalize dependent (c / 64 mod 64). intros r2 D2 M2.
  generalize dependent (c / 64 / 64 mod 64). intros r3 D3 M3.
  generalize dependent (c / 64 / 64 / 64). intros q3 D3.
  generalize dependent (c / 64 / 64). intros q2 D2 D3.
  generalize dependent (c / 64). intros q1 D1 D2.
  destruct (N.ltb_spec c 128) as [A|A].
  { cbn [app Urllib.utf8_decode_replace]. apply N.ltb_lt in A. rewrite A.
    reflexivity. }
  destruct (N.ltb_spec c 2048) as [B|B].
  { cbn [app]. rewrite utf8_decode_two by lia. f_equal. lia. }
  destruct (N.ltb_spec c 65536) as [C|C].
  { cbn [app]. rewrite utf8_decode_three; [f_equal; lia|lia|lia| |lia|lia].
    apply second_ok_true; lia. }
  cbn [app]. rewrite utf8_decode_four; [f_equal; lia|lia|lia| |lia|lia|lia|lia].
  apply second_ok_true; lia.
Qed.

Lemma unquote_to_bytes_plain c z :
  c <> 37 ->
  Urllib.unquote_to_bytes (c :: z) = c :: Urllib.unquote_to_bytes z.
Proof.
  intros Hc.
  pose proof (UrllibFacts.split_on_nonempty 37 z) as Hne.
  destruct (Urllib.split_on 37 z) as [|hz tz] eqn:Hz; [congruence|].
  assert (Hy : Urllib.split_on 37 (c :: z) = (c :: hz) :: tz).
  { cbn [Urllib.split_on]. apply N.eqb_neq in Hc. rewrite Hc, Hz. reflexivity. }
  rewrite (UrllibFacts.unquote_to_bytes_pieces _ _ _ Hy),
          (UrllibFacts.unquote_to_bytes_pieces _ _ _ Hz).
  reflexivity.
Qed.

Lemma escaped_plain bs e :
  escaped bs e -> Forall (fun c => c < 128 /\ c <> 43) e.
Proof.
  induction 1 as [|b bs h1 h2 x y q H1 H2 _ _ IH]; [constructor|].
  destruct (hex_value_digit _ _ H1) as (_ & P1 & A1 & _).
  destruct (hex_value_digit _ _ H2) as (_ & P2 & A2 & _).
  repeat (constructor; [split; (assumption || reflexivity || discriminate)|]).
  exact IH.
Qed.

Lemma escaped_bytes bs e z :
  escaped bs e ->
  Urllib.unquote_to_bytes (e ++ z) = bs ++ Urllib.unquote_to_bytes z.
Proof.
  induction 1 as [|b bs h1 h2 x y q H1 H2 Hb _ IH]; [reflexivity|].
  change ((37 :: h1 :: h2 :: q) ++ z) with ([] ++ [37; h1; h2] ++ (q ++ z)).
  rewrite (unquote_to_bytes_escape h1 h2 x y [] (q ++ z) H1 H2).
  rewrite IH, Hb. reflexivity.
Qed.

Lemma url_encoded_ascii s q :
  url_encoded s q -> Forall (fun c => c < 128) (Urllib.replace_plus q).
Proof.
  induction 1 as [|c s q Hc _ Hp _ IH|s q _ IH|c s e q _ He _ IH].
  - constructor.
  - simpl. apply N.eqb_neq in Hp. rewrite Hp. constructor; assumption.
  - simpl. constructor; [reflexivity|exact IH].
  - rewrite UrllibFacts.replace_plus_app. apply Forall_app. split; [|exact IH].
    pose proof (escaped_plain _ _ He) as Hplain.
    rewrite replace_plus_plain
      by (eapply Forall_impl; [exact Hplain|]; simpl; tauto).
    eapply Forall_impl; [exact Hplain|]. simpl. tauto.
Qed.

Lemma url_encoded_bytes s q :
  url_encoded s q ->
  Urllib.unquote_to_bytes (Urllib.replace_plus q) = flat_map utf8_encode s.
Proof.
  induction 1 as [|c s q Hc H37 Hp _ IH|s q _ IH|c s e q _ He _ IH].
  - reflexivity.
  - cbn [Urllib.replace_plus map flat_map]. apply N.eqb_neq in Hp. rewrite Hp.
    fold (Urllib.replace_plus q).
    rewrite unquote_to_bytes_plain by assumption. rewrite IH.
    unfold utf8_encode. apply N.ltb_lt in Hc. rewrite Hc. reflexivity.
  - cbn [Urllib.replace_plus map flat_map]. fold (Urllib.replace_plus q).
    rewrite unquote_to_bytes_plain by discriminate. rewrite IH. reflexivity.
  - rewrite UrllibFacts.replace_plus_app.
    rewrite replace_plus_plain
      by (eapply Forall_impl; [exact (escaped_plain _ _ He)|]; simpl; tauto).
    rewrite (escaped_bytes _ _ _ He), IH. reflexivity.
Qed.

Lemma url_encoded_scalar s q :
  url_encoded s q -> Forall (fun c => scalar_value c = true) s.
Proof.
  induction 1 as [|c s q Hc _ _ _ IH|s q _ IH|c s e q Hsc _ _ IH];
    constructor; try assumption; [|reflexivity].
  unfold scalar_value. apply andb_true_iff. split.
  - apply N.ltb_lt. lia.
  - apply negb_true_iff, andb_false_iff. left. apply N.leb_gt. lia.
Qed.

Lemma utf8_decode_encode_all s :
  Forall (fun c => scalar_value c = true) s ->
  Urllib.utf8_decode_replace (flat_map utf8_encode s) = s.
Proof.
  induction 1 as [|c s Hc _ IH]; [reflexivity|].
  cbn [flat_map]. rewrite utf8_decode_encode by assumption. rewrite IH.
  reflexivity.
Qed.

Lemma unquote_plus_url_encoded s q :
  url_encoded s q -> Urllib.unquote_plus q = s.
Proof.
  intros H. unfold Urllib.unquote_plus.
  rewrite UrllibFacts.unquote_parts_eq.
  rewrite <- (app_nil_r (Urllib.replace_plus q)).
  rewrite (UrllibFacts.unquote_parts_ascii (Urllib.replace_plus q) [] [])
    by (eapply url_encoded_ascii, H).
  cbn [app Urllib.unquote_parts]. unfold Urllib.decode_chunk.
  rewrite (url_encoded_bytes _ _ H).
  apply utf8_decode_encode_all. eapply url_encoded_scalar, H.
Qed.

End RoundTrip.

(** X14: decoding undoes the URL encoding of a key. For every text [s] of
    Unicode scalar values and every URL encoding [q] of it (each character
    written as the escapes of its UTF-8 bytes, a space possibly as ['+'], an
    ASCII character other than ['%'] and ['+'] possibly as it is),
    [unquote_plus] gives [s] back, and a record whose key is [q] has its
    report fetched under the key [s]. *)
Theorem X14_encoded_key_fetched_decoded py s3 cfg record s q st :
  typed_envelope record = true ->
  envelope_field record (U "object") (U "key") = Some (JStr q) ->
  url_encoded s q ->
  Urllib.unquote_plus q = s /\
  exists rest,
    calls (snd (Tagger.process_record py s3 cfg record st))
    = calls st
      ++ get_object
           (default JNull (envelope_field record (U "bucket") (U "name")))
           (JStr s)
           (version_param
              (default JNull
                 (envelope_field record (U "object") (U "versionId"))))
         :: rest.
Proof.
  intros Hty Hk Henc.
  pose proof (unquote_plus_url_encoded s q Henc) as Hdec.
  split; [exact Hdec|].
  pose proof (typed_envelope_location record Hty) as Hloc.
  rewrite Hk, Hdec in Hloc.
  destruct (process_record_calls py s3 cfg record _ st Hloc) as (rest & Hc & _).
  exists rest. exact Hc.
Qed.

Lemma X14_encoded_key_fetched_decoded_witness :
  Urllib.unquote_plus (U "a+b%2B%C3%a9.json") = U "a b+" ++ [233%N] ++ U ".json" /\
  exists rest,
    calls (snd (Tagger.process_record py0
                  (serving (report_of 2 "Low" "data" "x.csv")) default_config
                  (record_of "b" "a+b%2B%C3%a9.json") initial))
    = get_object (JStr (U "b")) (JStr (U "a b+" ++ [233%N] ++ U ".json")) None
      :: rest.
Proof.
  refine (X14_encoded_key_fetched_decoded py0
            (serving (report_of 2 "Low" "data" "x.csv")) default_config
            (record_of "b" "a+b%2B%C3%a9.json")
            (U "a b+" ++ [233%N] ++ U ".json") (U "a+b%2B%C3%a9.json")
            initial _ _ _).
  - vm_compute; reflexivity.
  - vm_compute; reflexivity.
  - change (U "a b+" ++ [233%N] ++ U ".json")
      with [97; 32; 98; 43; 233; 46; 106; 115; 111; 110]%N.
    change (U "a+b%2B%C3%a9.json")
      with ([97; 43; 98]
            ++ ([37; 50; 66] ++ ([37; 67; 51; 37; 97; 57]
            ++ [46; 106; 115; 111; 110])))%N.
    apply url_encoded_plain; [reflexivity|discriminate|discriminate|].
    apply url_encoded_space.
    apply url_encoded_plain; [reflexivity|discriminate|discriminate|].
    apply url_encoded_escape; [reflexivity| |].
    { apply (escaped_cons 43 [] 50 66 2 11 []); try reflexivity. constructor. }
    apply url_encoded_escape; [reflexivity| |].
    { change (utf8_encode 233) with [195; 169]%N.
      apply (escaped_cons 195 [169%N] 67 51 12 3 [37; 97; 57]%N);
        try reflexivity.
      apply (escaped_cons 169 [] 97 57 10 9 []); try reflexivity. constructor. }
    repeat (apply url_encoded_plain; [reflexivity|discriminate|discriminate|]).
    constructor.
Defined.

(** * The lifecycle-put *)

(** X15: once the tag-put has succeeded or failed with a [ClientError], the
    outcome of the lifecycle-put alone decides how the record ends: success
    and [ClientError] both end it normally, and neither leaves a trace in the
    metrics (there is no counter for the lifecycle rule: the tagging counter
    is the only one); any other exception of the lifecycle-put leaves
    [process_record], after the tag has been put and counted. *)
Theorem X15_lifecycle_outcome py s3 cfg record loc s desc res st :
  report_location record = Ok loc ->
  report_score py (fetched s3 (calls st) loc) = Some s ->
  Tagger.SCORE_THRESHOLD cfg <= s ->
  severity_field (fetched s3 (calls st) loc) (U "description") = Some desc ->
  affected_resource (fetched s3 (calls st) loc) = Some res ->
  let history := calls st ++ [fetch_call loc] in
  let tag := tag_put py cfg desc res in
  let put := lifecycle_put cfg res in
  escapes (s3 history tag) = None ->
  Tagger.process_record py s3 cfg record st
  = (match s3 (history ++ [tag]) put with
     | Ok _ | Raise ClientError => Ok tt
     | Raise e => Raise e
     end,
     {| calls := history ++ [tag; put];
        metrics := metrics st
                   ++ [(match s3 history tag with
                        | Ok _ => "TaggingSuccess"
                        | Raise _ => "TaggingFailed"
                        end%string, 1)] |}).
Proof.
  intros Hloc Hs Hle Hd Hres history tag put Hesc.
  rewrite (process_record_at_threshold _ _ _ _ _ _ _ _ _ Hloc Hs Hle Hd Hres).
  fold history tag put. rewrite Hesc. f_equal.
  - unfold guarded, escapes. destruct (s3 (history ++ [tag]) put) as [a|[]];
      reflexivity.
  - f_equal. unfold escapes in Hesc. unfold tagging_counter.
    destruct (s3 history tag) as [a|e]; [reflexivity|].
    destruct (is_ClientError e); [reflexivity|discriminate].
Qed.

Lemma X15_lifecycle_outcome_witness :
  let s3 : s3_client :=
    fun _ c =>
      match c with
      | get_object _ _ _ => Ok (Ok (report_of 5 "High" "data" "secret.csv"))
      | put_bucket_lifecycle_configuration _ _ => Raise ClientError
      | _ => Ok (Ok JNull)
      end in
  Tagger.process_record py0 s3 default_config (record_of "b" "r.json") initial
  = (Ok tt,
     {| calls :=
          [ get_object (JStr (U "b")) (JStr (U "r.json")) None;
            put_object_tagging (JStr (U "data")) (JStr (U "secret.csv"))
              [(U "Severity", U "High")] None;
            put_bucket_lifecycle_configuration (JStr (U "data"))
              [ {| Filter_Prefix := JStr (U "secret.csv");
                   Status := "Enabled";
                   NoncurrentVersionTransitions := [(365, "GLACIER"%string)];
                   NoncurrentVersionExpiration := 1825 |} ] ];
        metrics := [("TaggingSuccess"%string, 1)] |}).
Proof.
  intros s3.
  refine (X15_lifecycle_outcome py0 s3 default_config (record_of "b" "r.json")
            (JStr (U "b"), JStr (U "r.json"), JNull) 5 (JStr (U "High"))
            (JStr (U "data"), JStr (U "secret.csv"), JNull) initial
            _ _ _ _ _ _).
  - vm_compute; reflexivity.
  - vm_compute; reflexivity.
  - vm_compute; discriminate.
  - vm_compute; reflexivity.
  - vm_compute; reflexivity.
  - vm_compute; reflexivity.
Defined.
